(** * ScrapeRMP: a shallow embedding of the collection engine

    The development follows [ScrapeRMP.py]: the validity probe
    ([school_valid]), the two cursor paginators ([get_profs],
    [get_prof_reviews]), the two thread-pool dispatchers ([all_profs],
    [get_all_prof_reviews]) and the batch loop ([all_prof_reviews]).

    Python values that come out of [response.json()] are modelled by the
    inductive type [json]; a Python [dict] is an association list in
    insertion order.  Exceptions are values of the error monad [py].  The
    remote service is a parameter: a function from the number of requests
    already sent in the session and the request to a response.  [while]
    loops that may run forever take a fuel argument and answer [None] when
    it runs out. *)

From Stdlib Require Import ZArith List String Ascii Bool Arith Lia Permutation.
From Stdlib Require Import NArith DecimalString DecimalPos DecimalZ.
Import ListNotations.

Open Scope string_scope.
Open Scope list_scope.
Open Scope Z_scope.

Set Warnings "-register-all".

(* ================================================================== *)
(** * Part I: the program *)
(* ================================================================== *)

(** ** Python dictionaries: association lists with insertion order *)

Module Dict.

Section Ops.
Context {V : Type}.

Fixpoint get (k : string) (m : list (string * V)) : option V :=
  match m with
  | [] => None
  | (k', v) :: m' => if String.eqb k' k then Some v else get k m'
  end.

Definition has (k : string) (m : list (string * V)) : bool :=
  match get k m with Some _ => true | None => false end.

(** [d[k] = v]: an existing key keeps its position, a new key goes last. *)
Fixpoint set (k : string) (v : V) (m : list (string * V)) : list (string * V) :=
  match m with
  | [] => [(k, v)]
  | (k', v') :: m' =>
      if String.eqb k' k then (k, v) :: m' else (k', v') :: set k v m'
  end.

(** [del d[k]] once the key is known to be present: the key is gone. *)
Fixpoint del (k : string) (m : list (string * V)) : list (string * V) :=
  match m with
  | [] => []
  | (k', v') :: m' =>
      if String.eqb k' k then del k m' else (k', v') :: del k m'
  end.

End Ops.

End Dict.

(** ** JSON values *)

(** Numbers are integers here: no control flow of the program looks at a
    number other than through truthiness. *)
Inductive json : Type :=
| JNull
| JBool (b : bool)
| JNum (z : Z)
| JStr (s : string)
| JArr (l : list json)
| JObj (m : list (string * json)).

Fixpoint json_eqb (a b : json) {struct a} : bool :=
  match a, b with
  | JNull, JNull => true
  | JBool x, JBool y => Bool.eqb x y
  | JNum x, JNum y => Z.eqb x y
  | JStr x, JStr y => String.eqb x y
  | JArr l, JArr l' =>
      (fix go (l l' : list json) {struct l} : bool :=
         match l, l' with
         | [], [] => true
         | x :: xs, y :: ys => json_eqb x y && go xs ys
         | _, _ => false
         end) l l'
  | JObj m, JObj m' =>
      (fix go (m m' : list (string * json)) {struct m} : bool :=
         match m, m' with
         | [], [] => true
         | (k, x) :: xs, (k', y) :: ys =>
             String.eqb k k' && json_eqb x y && go xs ys
         | _, _ => false
         end) m m'
  | _, _ => false
  end.

(** Induction on JSON values that goes through arrays and objects. *)

Section JsonInduction.

Variable P : json -> Prop.
Hypothesis HNull : P JNull.
Hypothesis HBool : forall b, P (JBool b).
Hypothesis HNum : forall z, P (JNum z).
Hypothesis HStr : forall s, P (JStr s).
Hypothesis HArr : forall l, Forall P l -> P (JArr l).
Hypothesis HObj : forall m, Forall (fun kv => P (snd kv)) m -> P (JObj m).

Fixpoint json_nested_ind (j : json) : P j :=
  match j with
  | JNull => HNull
  | JBool b => HBool b
  | JNum z => HNum z
  | JStr s => HStr s
  | JArr l =>
      HArr l ((fix go (l : list json) : Forall P l :=
                 match l with
                 | [] => Forall_nil _
                 | x :: xs => Forall_cons x (json_nested_ind x) (go xs)
                 end) l)
  | JObj m =>
      HObj m ((fix go (m : list (string * json))
                 : Forall (fun kv => P (snd kv)) m :=
                 match m with
                 | [] => Forall_nil _
                 | kv :: xs =>
                     Forall_cons kv (json_nested_ind (snd kv)) (go xs)
                 end) m)
  end.

End JsonInduction.

(** ** Python semantics of the operations the program uses *)

Module Py.

Inductive exn : Type :=
| ConnectionError
    (* requests.exceptions.RequestException raised by get/post *)
| JSONDecodeError (via_requests : bool)
    (* raised by response.json(); [via_requests] tells whether the class is
       requests.exceptions.JSONDecodeError, which is also a
       RequestException, or the plain json.JSONDecodeError *)
| KeyError (k : string)
| TypeError
| IndexError
| ZeroDivisionError
| UnboundLocalError
| TimeoutError
| OtherError (name : string)
    (* any other exception, by the name of its class *).

(** A computation that returns or raises. *)
Inductive py (A : Type) : Type :=
| Return (a : A)
| Raise (e : exn).
Arguments Return {A} a.
Arguments Raise {A} e.

Definition bind {A B : Type} (c : py A) (k : A -> py B) : py B :=
  match c with
  | Return a => k a
  | Raise e => Raise e
  end.

Definition is_raise {A : Type} (c : py A) : bool :=
  match c with Return _ => false | Raise _ => true end.

(** [bool(x)] *)
Definition truthy (j : json) : bool :=
  match j with
  | JNull => false
  | JBool b => b
  | JNum z => negb (z =? 0)
  | JStr s => negb (String.eqb s "")
  | JArr l => match l with [] => false | _ => true end
  | JObj m => match m with [] => false | _ => true end
  end.

(** [x[k]] for a string key [k] *)
Definition getitem (j : json) (k : string) : py json :=
  match j with
  | JObj m => match Dict.get k m with
              | Some v => Return v
              | None => Raise (KeyError k)
              end
  | _ => Raise TypeError
  end.

(** [x[k] = v] for a string key [k] *)
Definition setitem (j : json) (k : string) (v : json) : py json :=
  match j with
  | JObj m => Return (JObj (Dict.set k v m))
  | _ => Raise TypeError
  end.

(** [del x[k]] for a string key [k] *)
Definition delitem (j : json) (k : string) : py json :=
  match j with
  | JObj m => if Dict.has k m then Return (JObj (Dict.del k m))
              else Raise (KeyError k)
  | _ => Raise TypeError
  end.

Fixpoint chars (s : string) : list json :=
  match s with
  | EmptyString => []
  | String c s' => JStr (String c EmptyString) :: chars s'
  end.

(** [for x in j]: the elements of a list, the keys of a dict, the
    characters of a string. *)
Definition iter (j : json) : py (list json) :=
  match j with
  | JArr l => Return l
  | JObj m => Return (map (fun kv => JStr (fst kv)) m)
  | JStr s => Return (chars s)
  | _ => Raise TypeError
  end.

(** [x == s] for a string literal [s] *)
Definition eq_str (j : json) (s : string) : bool :=
  match j with
  | JStr s' => String.eqb s' s
  | _ => false
  end.

(** [needle in hay] on strings *)
Fixpoint contains (needle hay : string) : bool :=
  if String.prefix needle hay then true
  else match hay with
       | EmptyString => false
       | String _ hay' => contains needle hay'
       end.

(** [range(start, stop)] *)
Definition range (start stop : Z) : list Z :=
  map (fun i => start + Z.of_nat i) (seq 0 (Z.to_nat (stop - start))).

(** [l[i]] for an index [i] that is not negative *)
Definition index {A : Type} (l : list A) (i : nat) : py A :=
  match nth_error l i with
  | Some x => Return x
  | None => Raise IndexError
  end.

(** [l[start:stop]]: a negative bound counts from the end, every bound is
    clipped to the list. *)
Definition clip (len i : Z) : Z :=
  if i <? 0 then Z.max 0 (i + len) else Z.min i len.

Definition slice {A : Type} (l : list A) (start stop : Z) : list A :=
  let len := Z.of_nat (List.length l) in
  let s := clip len start in
  let e := clip len stop in
  firstn (Z.to_nat (e - s)) (skipn (Z.to_nat s) l).

(** [mapM]: a [for] loop that builds a list and stops at the first raise. *)
Fixpoint for_each {A B : Type} (f : A -> py B) (l : list A) : py (list B) :=
  match l with
  | [] => Return []
  | x :: l' =>
      bind (f x) (fun y =>
      bind (for_each f l') (fun ys => Return (y :: ys)))
  end.

(** [base64.b64encode(s.encode()).decode()] for ASCII text *)
Definition b64_alphabet : string :=
  "ABCDEFGHIJKLMNOPQRSTUVWXYZabcdefghijklmnopqrstuvwxyz0123456789+/".

Definition b64_char (n : N) : ascii :=
  match String.get (N.to_nat n) b64_alphabet with
  | Some c => c
  | None => "="%char
  end.

Fixpoint b64_groups (l : list N) : string :=
  match l with
  | [] => EmptyString
  | [a] =>
      String (b64_char (a / 4)) (String (b64_char ((a mod 4) * 16)) "==")
  | [a; b] =>
      String (b64_char (a / 4))
        (String (b64_char ((a mod 4) * 16 + b / 16))
           (String (b64_char ((b mod 16) * 4)) "="))
  | a :: b :: c :: rest =>
      String (b64_char (a / 4))
        (String (b64_char ((a mod 4) * 16 + b / 16))
           (String (b64_char ((b mod 16) * 4 + c / 64))
              (String (b64_char (c mod 64)) (b64_groups rest))))
  end%N.

Definition b64encode (s : string) : string :=
  b64_groups (map N_of_ascii (list_ascii_of_string s)).

(** [f"{n}"] for an integer *)
Definition str_of_int (n : Z) : string :=
  NilZero.string_of_int (Z.to_int n).

End Py.

Export Py.

Declare Scope py_scope.
Notation "x <- c ;; k" := (Py.bind c (fun x => k))
  (at level 61, c at next level, right associativity) : py_scope.
Open Scope py_scope.

(** ** The remote service *)

Module Net.

(** The two query documents, [search_query] and [pql]. *)
Inductive template : Type := ProfsAtSchool | ProfReviews.

(** The part of the posted payload that varies: the template and the
    fields [count], [cursor] and [schoolID] / [id] of [variables]. *)
Record request : Type := mkRequest {
  query : template;
  count : Z;
  cursor : json;
  ref : string
}.

Inductive response : Type :=
| ConnectionFailed           (* session.post raises *)
| BadBody (via_requests : bool)  (* response.json() raises *)
| Body (j : json).           (* response.json() returns j *)

(** The service answers the [n]-th request of a session. *)
Definition service : Type := nat -> request -> response.

(** What a run does to the outside world, in order. *)
Inductive event : Type :=
| Get (school_number : Z)
| Post (rq : request)
| Sleep (seconds : Z).

Record env : Type := mkEnv {
  page_of_school : Z -> py string;   (* requests.get(...).text *)
  graphql : service
}.

(** A run is the pair of its outcome ([None] when the fuel ran out before
    the loop ended) and of the events it produced. *)
Definition run (A : Type) : Type := (option A * list event)%type.

Definition emit {A : Type} (ev : event) (r : run A) : run A :=
  (fst r, ev :: snd r).

Definition done {A : Type} (a : A) : run A := (Some a, []).

Definition out_of_fuel {A : Type} : run A := (None, []).

Definition is_post (ev : event) : bool :=
  match ev with Post _ => true | _ => false end.

Definition posts (t : list event) : list request :=
  flat_map (fun ev => match ev with Post rq => [rq] | _ => [] end) t.

End Net.

Export Net.

(** ** The validity probe and the professors paginator *)

Module Profs.

Definition not_found_marker : string :=
  "We couldn&#x27;t find the school you were looking for".

Definition no_ratings_marker : string := "have any ratings yet".

(** The classification [school_valid] computes from [resp.text]. *)
Definition classify (text : string) : bool :=
  let error_message := contains not_found_marker text in
  let no_ratings := contains no_ratings_marker text in
  negb (error_message || no_ratings).

Definition school_valid (e : env) (school_number : Z) : py bool :=
  text <- page_of_school e school_number ;;
  Return (classify text).

(** The body of [for edge in edges] for one edge. *)
Definition add_edge (results : list json) (edge : json) : py (list json) :=
  node <- getitem edge "node" ;;
  tn <- getitem node "__typename" ;;
  if negb (eq_str tn "Teacher") then Return results
  else
    school <- getitem node "school" ;;
    sid <- getitem school "id" ;;
    node <- setitem node "schoolId" sid ;;
    school <- getitem node "school" ;;
    sname <- getitem school "name" ;;
    node <- setitem node "schoolName" sname ;;
    node <- delitem node "school" ;;
    Return (results ++ [node]).

Fixpoint add_edges (results : list json) (edges : list json) : py (list json) :=
  match edges with
  | [] => Return results
  | edge :: rest =>
      results' <- add_edge results edge ;;
      add_edges results' rest
  end.

(** The two lookups inside the [try]. *)
Definition envelope (j : json) : py (json * json) :=
  d <- getitem j "data" ;;
  s <- getitem d "search" ;;
  t <- getitem s "teachers" ;;
  page_info <- getitem t "pageInfo" ;;
  d <- getitem j "data" ;;
  s <- getitem d "search" ;;
  t <- getitem s "teachers" ;;
  edges <- getitem t "edges" ;;
  Return (page_info, edges).

(** [pages is not None and pages_so_far >= pages] *)
Definition cap_reached (pages : option Z) (pages_so_far : Z) : bool :=
  match pages with
  | None => false
  | Some p => p <=? pages_so_far
  end.

Definition school_id (school_number : Z) : string :=
  b64encode ("School-" ++ str_of_int school_number)%string.

(** One turn of [while has_more] per unit of fuel.  [n] counts the requests
    sent, [j] is the variable [j] (unbound until a body has been decoded). *)
Fixpoint get_profs_loop (fuel : nat) (srv : service) (sid : string)
    (page_size : Z) (pages : option Z)
    (n : nat) (j : option json) (cur_cursor : json) (results : list json)
    (pages_so_far : Z) {struct fuel} : run (py (list json)) :=
  match fuel with
  | O => out_of_fuel
  | S fuel' =>
      let rq := mkRequest ProfsAtSchool page_size cur_cursor sid in
      emit (Post rq)
        match srv n rq with
        | ConnectionFailed => done (Raise ConnectionError)
        | BadBody true =>
            (* except RequestException: print(j["errors"]); return results *)
            done (match j with
                  | None => Raise UnboundLocalError
                  | Some jv => _ <- getitem jv "errors" ;; Return results
                  end)
        | BadBody false =>
            (* except json.JSONDecodeError: return results *)
            done (Return results)
        | Body jv =>
            match envelope jv with
            | Raise (KeyError _) => done (Return results)
            | Raise e => done (Raise e)
            | Return (page_info, edges) =>
                match (es <- iter edges ;; add_edges results es) with
                | Raise e => done (Raise e)
                | Return results' =>
                    match (h <- getitem page_info "hasNextPage" ;;
                           c <- getitem page_info "endCursor" ;;
                           Return (h, c)) with
                    | Raise e => done (Raise e)
                    | Return (has_more, cur_cursor') =>
                        let pages_so_far' := pages_so_far + 1 in
                        if cap_reached pages pages_so_far'
                        then done (Return results')
                        else if truthy has_more
                        then get_profs_loop fuel' srv sid page_size pages
                               (S n) (Some jv) cur_cursor' results'
                               pages_so_far'
                        else done (Return results')
                    end
                end
            end
        end
  end.

Definition get_profs (fuel : nat) (e : env) (school_number : Z)
    (page_size : Z) (pages : option Z)
  : run (py (list json)) :=
  emit (Get school_number)
    match school_valid e school_number with
    | Raise ex => done (Raise ex)
    | Return false => done (Return [])
    | Return true =>
        get_profs_loop fuel (graphql e) (school_id school_number)
          page_size pages 0%nat None (JStr "") [] 0
    end.

(** [get_profs(i)] as [all_profs] submits it. *)
Definition default_page_size : Z := 1000.

End Profs.

(** ** The reviews paginator *)

Module Reviews.

Record result : Type := mkResult {
  data : list json;
  error : bool
}.

(** The body of [for node in nodes] for one edge. *)
Definition reshape (prof_id : string) (edge : json) : py json :=
  node <- getitem edge "node" ;;
  node <- setitem node "profId" (JStr prof_id) ;;
  node <- delitem node "thumbs" ;;
  match node with
  | JObj m =>
      if Dict.has "teacherNote" m then delitem node "teacherNote"
      else Return node
  | _ => Raise TypeError
  end.

(** The [for] loop appends to [results] in place: what was appended before
    a raise stays. *)
Fixpoint add_nodes (prof_id : string) (results : list json)
    (nodes : list json) : list json * option exn :=
  match nodes with
  | [] => (results, None)
  | edge :: rest =>
      match reshape prof_id edge with
      | Raise ex => (results, Some ex)
      | Return node => add_nodes prof_id (results ++ [node]) rest
      end
  end.

Definition ratings (rj : json) : py json :=
  d <- getitem rj "data" ;;
  nd <- getitem d "node" ;;
  getitem nd "ratings".

Definition service_max : Z := 1000.

Definition page_size (num_reviews : Z) : Z := Z.min service_max num_reviews.

(** The handler of [except Exception]. *)
Definition failed (results : list json) : run result :=
  emit (Sleep 20) (done (mkResult results true)).

Fixpoint get_prof_reviews_loop (fuel : nat) (srv : service)
    (prof_id : string) (num_reviews : Z)
    (n : nat) (cur_cursor : json) (results : list json) {struct fuel}
  : run result :=
  match fuel with
  | O => out_of_fuel
  | S fuel' =>
      let rq := mkRequest ProfReviews (page_size num_reviews) cur_cursor
                  prof_id in
      emit (Post rq)
        match srv n rq with
        | ConnectionFailed => failed results
        | BadBody _ => failed results
        | Body rj =>
            match (r <- ratings rj ;; es <- getitem r "edges" ;; iter es) with
            | Raise _ => failed results
            | Return nodes =>
                match add_nodes prof_id results nodes with
                | (results', Some _) => failed results'
                | (results', None) =>
                    match (r <- ratings rj ;;
                           page_info <- getitem r "pageInfo" ;;
                           k <- getitem page_info "hasNextPage" ;;
                           c <- getitem page_info "endCursor" ;;
                           Return (k, c)) with
                    | Raise _ => failed results'
                    | Return (keep_going, cur_cursor') =>
                        if truthy keep_going
                        then get_prof_reviews_loop fuel' srv prof_id
                               num_reviews (S n) cur_cursor' results'
                        else done (mkResult results' false)
                    end
                end
            end
        end
  end.

Definition get_prof_reviews (fuel : nat) (srv : service) (prof_id : string)
    (num_reviews : Z) : run result :=
  get_prof_reviews_loop fuel srv prof_id num_reviews 0%nat (JStr "") [].

End Reviews.

(** ** The table library *)

(** [polars] is a library the program calls; its code is not part of the
    repository.  It is a parameter of the embedding: a type of tables and
    the three operations the program uses, each of which may raise. *)

Module Tables.

Record library : Type := mkLibrary {
  table : Type;
  DataFrame : list json -> py table;   (* pl.DataFrame(records) *)
  unique : table -> py table;          (* df.unique() *)
  write_csv : table -> py unit         (* df.write_csv(path) *)
}.

(** [df = pl.DataFrame(records); df = df.unique(); df.write_csv(path)]:
    the table written, unless one of the three calls raises. *)
Definition save (L : library) (records : list json) : py (table L) :=
  df <- DataFrame L records ;;
  df <- unique L df ;;
  _ <- write_csv L df ;;
  Return df.

End Tables.

(** ** The dispatchers *)

(** A future is modelled by what [future.result(timeout=...)] does when the
    dispatcher asks for it: it returns the value of the unit of work, or
    raises what the unit raised, or raises [TimeoutError].  Printing and
    the cool-down [time.sleep(20)] do not change what is returned and are
    left out. *)

Module Dispatch.

Record collection : Type := mkCollection {
  data : list json;
  errors : list string
}.

(** [for i, x in enumerate(l)] *)
Definition enumerate {A : Type} (l : list A) : list (nat * A) :=
  combine (seq 0 (List.length l)) l.

Fixpoint fold_py {S A : Type} (f : S -> A -> py S) (l : list A) (st : S)
  : py S :=
  match l with
  | [] => Return st
  | x :: l' => st' <- f st x ;; fold_py f l' st'
  end.

Section ReviewsDispatcher.

(** [run pid num]: the outcome of the future of
    [get_prof_reviews(pid, num)]. *)
Variable run : string -> Z -> py Reviews.result.

Definition submit_all (prof_ids : list string) (prof_num_reviews : list Z)
  : py (list (py Reviews.result)) :=
  for_each
    (fun i =>
       pid <- index prof_ids i ;;
       num <- index prof_num_reviews i ;;
       Return (run pid num))
    (seq 0 (List.length prof_ids)).

Definition collect (prof_ids : list string) (st : collection)
    (ifut : nat * py Reviews.result) : py collection :=
  pid <- index prof_ids (fst ifut) ;;
  match snd ifut with
  | Return res =>
      let results := data st ++ Reviews.data res in
      if Reviews.error res
      then Return (mkCollection results (errors st ++ [pid]))
      else Return (mkCollection results (errors st))
  | Raise _ => Return (mkCollection (data st) (errors st ++ [pid]))
  end.

Definition get_all_prof_reviews (prof_ids : list string)
    (prof_num_reviews : list Z) : py collection :=
  futures <- submit_all prof_ids prof_num_reviews ;;
  fold_py (collect prof_ids) (enumerate futures) (mkCollection [] []).

End ReviewsDispatcher.

(** The future of one reviews unit against a service: a run that needs
    more round trips than fit before the timeout ends in [TimeoutError]. *)
Definition reviews_unit (srv : service) (deadline : string -> nat)
    (pid : string) (num : Z) : py Reviews.result :=
  match fst (Reviews.get_prof_reviews (deadline pid) srv pid num) with
  | Some r => Return r
  | None => Raise TimeoutError
  end.

Section ProfsDispatcher.

Variable L : Tables.library.

(** [run i]: the outcome of the future of [get_profs(i)]. *)
Variable run : Z -> py (list json).

Definition gather (result : list json) (f : py (list json)) : list json :=
  match f with
  | Return l => result ++ l
  | Raise _ => result
  end.

(** Returns [result] and, when [save] is given, the table written; raises
    what the table library raises while saving. *)
Definition all_profs (start stop : Z) (save : bool)
  : py (list json * option (Tables.table L)) :=
  let futures := map run (range start stop) in
  let result := fold_left gather futures [] in
  if save
  then t <- Tables.save L result ;; Return (result, Some t)
  else Return (result, None).

End ProfsDispatcher.

Definition profs_unit (e : env) (deadline : Z -> nat) (school_number : Z)
  : py (list json) :=
  match fst (Profs.get_profs (deadline school_number) e school_number
               Profs.default_page_size None) with
  | Some r => r
  | None => Raise TimeoutError
  end.

End Dispatch.

(** ** The batch loop *)

Module Batch.

Section Orchestrator.

Variable L : Tables.library.
Variable run : string -> Z -> py Reviews.result.

(** One turn of [while keep_going] per unit of fuel.  The [print] at the
    top of the body divides by [batch_size]. *)
Fixpoint all_prof_reviews_loop (fuel : nat) (prof_ids : list string)
    (prof_num_reviews : list Z) (batch_size : Z)
    (count : Z) (errors : list string) (total_data : list json)
    {struct fuel} : option (py (list json * list string)) :=
  match fuel with
  | O => None
  | S fuel' =>
      if batch_size =? 0 then Some (Raise ZeroDivisionError)
      else
        let start := count * batch_size in
        let stop := (count + 1) * batch_size in
        let batch_ids := slice prof_ids start stop in
        let batch_nums := slice prof_num_reviews start stop in
        let keep_going := start <? Z.of_nat (List.length prof_ids) in
        match Dispatch.get_all_prof_reviews run batch_ids batch_nums with
        | Raise e => Some (Raise e)
        | Return results =>
            let errors' := errors ++ Dispatch.errors results in
            let total_data' := total_data ++ Dispatch.data results in
            if keep_going
            then all_prof_reviews_loop fuel' prof_ids prof_num_reviews
                   batch_size (count + 1) errors' total_data'
            else Some (Return (total_data', errors'))
        end
  end.

(** Returns the table written to [out_name] and the list [errors]; raises
    what the table library raises while saving. *)
Definition all_prof_reviews (fuel : nat) (prof_ids : list string)
    (prof_num_reviews : list Z) (batch_size : Z)
  : option (py (Tables.table L * list string)) :=
  match all_prof_reviews_loop fuel prof_ids prof_num_reviews batch_size
          0 [] [] with
  | None => None
  | Some (Raise e) => Some (Raise e)
  | Some (Return (total_data, errors)) =>
      Some (t <- Tables.save L total_data ;; Return (t, errors))
  end.

End Orchestrator.

End Batch.

(** ** Mock services *)

(** Response bodies in the shape the two query documents describe, and
    services that serve a fixed sequence of responses. *)

Module Mock.

Definition edge_of (node : json) : json := JObj [("node", node)].

Definition page_info (has_next : bool) (end_cursor : string) : json :=
  JObj [("hasNextPage", JBool has_next); ("endCursor", JStr end_cursor)].

Definition profs_page (nodes : list json) (has_next : bool)
    (end_cursor : string) : json :=
  JObj [("data", JObj [("search", JObj [("teachers",
    JObj [("edges", JArr (map edge_of nodes));
          ("pageInfo", page_info has_next end_cursor)])])])].

Definition reviews_page (nodes : list json) (has_next : bool)
    (end_cursor : string) : json :=
  JObj [("data", JObj [("node", JObj [("ratings",
    JObj [("edges", JArr (map edge_of nodes));
          ("pageInfo", page_info has_next end_cursor)])])])].

Definition teacher (name : string) : json :=
  JObj [("__typename", JStr "Teacher"); ("firstName", JStr name);
        ("school", JObj [("id", JStr "U2Nob29sLTQy"); ("name", JStr "Alma")])].

Definition teacher_flat (name : string) : json :=
  JObj [("__typename", JStr "Teacher"); ("firstName", JStr name);
        ("schoolId", JStr "U2Nob29sLTQy"); ("schoolName", JStr "Alma")].

Definition department (name : string) : json :=
  JObj [("__typename", JStr "Department"); ("name", JStr name)].

Definition review (comment : string) : json :=
  JObj [("comment", JStr comment); ("thumbs", JArr []);
        ("teacherNote", JNull)].

Definition review_without_thumbs (comment : string) : json :=
  JObj [("comment", JStr comment)].

Definition review_flat (comment prof_id : string) : json :=
  JObj [("comment", JStr comment); ("profId", JStr prof_id)].

(** The [n]-th request gets the [n]-th response; the connection fails
    once the sequence is used up. *)
Definition sequence (responses : list response) : service :=
  fun n _ => nth n responses ConnectionFailed.

(** One page with one review, named after the professor asked for. *)
Definition one_review_each : service :=
  fun _ rq => Body (reviews_page [review (ref rq)] false "").

Definition open_school : Z -> py string :=
  fun _ => Return "<html>Professors at this school</html>".

Definition unknown_school : Z -> py string :=
  fun _ =>
    Return "<html>We couldn&#x27;t find the school you were looking for</html>".

Definition unreachable : Z -> py string :=
  fun _ => Raise ConnectionError.

(** Stand-ins for the table library, to run examples.  In both a table is
    the list of its records and [unique] keeps the first of equal records;
    the first never raises, the second cannot write. *)
Fixpoint distinct (l : list json) : list json :=
  match l with
  | [] => []
  | r :: l' => r :: filter (fun r' => negb (json_eqb r r')) (distinct l')
  end.

Definition tables : Tables.library :=
  Tables.mkLibrary (list json)
    (fun records => Return records)
    (fun t => Return (distinct t))
    (fun _ => Return tt).

Definition read_only_tables : Tables.library :=
  Tables.mkLibrary (list json)
    (fun records => Return records)
    (fun t => Return (distinct t))
    (fun _ => Raise (OtherError "ComputeError")).

End Mock.

(** ** Notions used to state the properties *)

Module Spec.

(** [needle] occurs in [hay]. *)
Definition Substring (needle hay : string) : Prop :=
  exists a b : string, hay = (a ++ needle ++ b)%string.

(** *** Professors pages *)

Definition typename_of (edge : json) : py json :=
  node <- getitem edge "node" ;;
  getitem node "__typename".

(** The edge has a readable [__typename] other than ['Teacher']. *)
Definition skipped (edge : json) : bool :=
  match typename_of edge with
  | Return tn => negb (eq_str tn "Teacher")
  | Raise _ => false
  end.

Definition kept (edge : json) : bool := negb (skipped edge).

(** The record [get_profs] appends for an edge it does not skip. *)
Definition promote (edge : json) : py json :=
  node <- getitem edge "node" ;;
  _ <- getitem node "__typename" ;;
  school <- getitem node "school" ;;
  sid <- getitem school "id" ;;
  node <- setitem node "schoolId" sid ;;
  school <- getitem node "school" ;;
  sname <- getitem school "name" ;;
  node <- setitem node "schoolName" sname ;;
  delitem node "school".

(** What a professor record looks like: the parent's id and name are flat
    fields taken from the nested [school] of [node], and the nested field
    is gone. *)
Definition promoted (node r : json) : Prop :=
  exists school sid sname,
    getitem node "school" = Return school /\
    getitem school "id" = Return sid /\
    getitem school "name" = Return sname /\
    getitem r "schoolId" = Return sid /\
    getitem r "schoolName" = Return sname /\
    getitem r "school" = Raise (KeyError "school").


(** *** Pages as the paginators read them *)

Record page : Type := mkPage {
  edges : list json;
  has_next : json;
  end_cursor : json
}.

Definition profs_body (jv : json) (p : page) : Prop :=
  exists page_info ej,
    Profs.envelope jv = Return (page_info, ej) /\
    iter ej = Return (edges p) /\
    getitem page_info "hasNextPage" = Return (has_next p) /\
    getitem page_info "endCursor" = Return (end_cursor p).

Definition reviews_edges (rj : json) : py (list json) :=
  r <- Reviews.ratings rj ;; es <- getitem r "edges" ;; iter es.

Definition reviews_page_info (rj : json) : py (json * json) :=
  r <- Reviews.ratings rj ;;
  page_info <- getitem r "pageInfo" ;;
  k <- getitem page_info "hasNextPage" ;;
  c <- getitem page_info "endCursor" ;;
  Return (k, c).

Definition reviews_body (rj : json) (p : page) : Prop :=
  reviews_edges rj = Return (edges p) /\
  reviews_page_info rj = Return (has_next p, end_cursor p).

(** The service answers request number [n], [n+1], ... with the pages
    [ps], whatever the request says. *)
Fixpoint serves (body : json -> page -> Prop) (srv : service) (n : nat)
    (ps : list page) : Prop :=
  match ps with
  | [] => True
  | p :: ps' =>
      (forall rq, exists jv, srv n rq = Body jv /\ body jv p) /\
      serves body srv (S n) ps'
  end.

(** [hasNextPage] is true on every page but the last, where it is false. *)
Fixpoint ends_at_last (ps : list page) : Prop :=
  match ps with
  | [] => False
  | p :: ps' =>
      match ps' with
      | [] => truthy (has_next p) = false
      | _ :: _ => truthy (has_next p) = true /\ ends_at_last ps'
      end
  end.

(** An edge that some response of the service carries. *)
Definition profs_served (srv : service) (edge : json) : Prop :=
  exists n rq jv page_info ej es,
    srv n rq = Body jv /\
    Profs.envelope jv = Return (page_info, ej) /\
    iter ej = Return es /\
    In edge es.

(** Whether [print(j["errors"])] raises. *)
Definition errors_lookup (jv : json) : py unit :=
  _ <- getitem jv "errors" ;; Return tt.

(** Two responses that differ at most in edges that are skipped. *)
Inductive agree : response -> response -> Prop :=
| agree_same (r : response) : agree r r
| agree_pages (jv jv' page_info ej ej' : json) (es es' : list json) :
    Profs.envelope jv = Return (page_info, ej) ->
    Profs.envelope jv' = Return (page_info, ej') ->
    iter ej = Return es ->
    iter ej' = Return es' ->
    filter kept es = filter kept es' ->
    errors_lookup jv = errors_lookup jv' ->
    agree (Body jv) (Body jv').

(** *** Units of work *)

Definition unit_failed {A : Type} (error : A -> bool) (o : py A) : bool :=
  match o with
  | Return r => error r
  | Raise _ => true
  end.

Definition unit_data {A : Type} (data : A -> list json) (o : py A)
  : list json :=
  match o with
  | Return r => data r
  | Raise _ => []
  end.

(** The work units of the reviews dispatcher are the pairs of a professor
    id and a number of reviews; [run] gives the outcome of each future. *)
Definition outcome (run : string -> Z -> py Reviews.result)
    (u : string * Z) : py Reviews.result :=
  run (fst u) (snd u).

Definition failing (run : string -> Z -> py Reviews.result)
    (units : list (string * Z)) : list (string * Z) :=
  filter (fun u => unit_failed Reviews.error (outcome run u)) units.

Definition gathered (run : string -> Z -> py Reviews.result)
    (units : list (string * Z)) : list json :=
  flat_map (fun u => unit_data Reviews.data (outcome run u)) units.

(** The units the batch loop has not reached when it starts batch number
    [count]. *)
Definition remaining (units : list (string * Z)) (batch_size count : Z)
  : list (string * Z) :=
  skipn (Z.to_nat (count * batch_size)) units.





End Spec.

(** ** Reading a school id back *)

(** The inverse of [b64encode] and of [school_id], and the checks on bytes
    that the proof of the round trip runs. *)

Module Wire.

Fixpoint find_index (c : ascii) (s : string) (i : N) : N :=
  match s with
  | EmptyString => i
  | String c' s' => if Ascii.eqb c c' then i else find_index c s' (N.succ i)
  end.

Definition b64_index (c : ascii) : N := find_index c b64_alphabet 0.

Fixpoint b64_ungroups (s : string) : list N :=
  match s with
  | String c1 (String c2 (String c3 (String c4 rest))) =>
      let i1 := b64_index c1 in
      let i2 := b64_index c2 in
      let i3 := b64_index c3 in
      let i4 := b64_index c4 in
      if Ascii.eqb c3 "=" then [i1 * 4 + i2 / 16]
      else if Ascii.eqb c4 "="
      then [i1 * 4 + i2 / 16; (i2 mod 16) * 16 + i3 / 4]
      else (i1 * 4 + i2 / 16) :: ((i2 mod 16) * 16 + i3 / 4)
           :: ((i3 mod 4) * 64 + i4) :: b64_ungroups rest
  | _ => []
  end%N.

Definition b64decode (s : string) : string :=
  string_of_list_ascii (map ascii_of_N (b64_ungroups s)).

Definition upto (n : nat) : list N := map N.of_nat (seq 0 n).

Definition sextet_ok (i : N) : bool :=
  (b64_index (b64_char i) =? i)%N && negb (Ascii.eqb (b64_char i) "=").

Definition pair_ok (a b : N) : bool :=
  ((a / 4 <? 64) &&
   ((a mod 4) * 16 + b / 16 <? 64) &&
   ((a mod 4) * 16 <? 64) &&
   ((a mod 16) * 4 + b / 64 <? 64) &&
   ((a mod 16) * 4 <? 64) &&
   (a mod 64 <? 64) &&
   (((a mod 4) * 16 + b / 16) / 16 =? a mod 4) &&
   (((a mod 4) * 16) / 16 =? a mod 4) &&
   (((a mod 4) * 16 + b / 16) mod 16 =? b / 16) &&
   (((a mod 16) * 4 + b / 64) / 4 =? a mod 16) &&
   (((a mod 16) * 4) / 4 =? a mod 16) &&
   (((a mod 16) * 4 + b / 64) mod 4 =? b / 64) &&
   ((a / 4) * 4 + a mod 4 =? a) &&
   ((a / 16) * 16 + a mod 16 =? a) &&
   ((a / 64) * 64 + a mod 64 =? a))%N.

(** [parse_school_id sid]: the school number an id was made from. *)
Fixpoint strip_prefix (p s : string) : option string :=
  match p, s with
  | EmptyString, _ => Some s
  | String a p', String b s' =>
      if Ascii.eqb a b then strip_prefix p' s' else None
  | String _ _, EmptyString => None
  end.

Definition school_number_of (sid : string) : option Z :=
  match strip_prefix "School-" (b64decode sid) with
  | Some digits => option_map Z.of_int (NilZero.int_of_string digits)
  | None => None
  end.

End Wire.

(** ** Traces of requests *)

Module Trace.

(** What [get_profs] reads of [pageInfo] in a decoded body. *)
Definition profs_page_info (jv : json) : py (json * json) :=
  pe <- Profs.envelope jv ;;
  h <- getitem (fst pe) "hasNextPage" ;;
  c <- getitem (fst pe) "endCursor" ;;
  Return (h, c).

(** The requests [rqs], sent as number [n], [n+1], ... of a session, are
    chained: the first carries [cur]; each further one follows a response
    whose [hasNextPage] was true and carries the [endCursor] of that
    response. *)
Fixpoint threaded (srv : service) (view : json -> py (json * json))
    (n : nat) (cur : json) (rqs : list request) : Prop :=
  match rqs with
  | [] => True
  | rq :: rest =>
      cursor rq = cur /\
      match rest with
      | [] => True
      | _ :: _ =>
          exists body more next,
            srv n rq = Body body /\
            view body = Return (more, next) /\
            truthy more = true /\
            threaded srv view (S n) next rest
      end
  end.

Definition sleeps (t : list event) : list Z :=
  flat_map (fun ev => match ev with Sleep s => [s] | _ => [] end) t.

(** [max(1, pages)]: a capped run fetches the first page in any case. *)
Definition page_budget (pages : Z) : nat := Z.to_nat (Z.max 1 pages).

End Trace.

(** ** Further mock data *)

Module Cases.

Definition teacher_without_school (name : string) : json :=
  JObj [("__typename", JStr "Teacher"); ("firstName", JStr name)].

End Cases.

(* ================================================================== *)
(** * Part II: properties *)
(* ================================================================== *)

(** ** The error monad *)

Lemma bind_return {A B : Type} (a : A) (k : A -> py B) :
  Py.bind (Return a) k = k a.
Proof. reflexivity. Qed.

Lemma bind_raise {A B : Type} (e : exn) (k : A -> py B) :
  Py.bind (Raise e) k = Raise e.
Proof. reflexivity. Qed.

Lemma bind_inv {A B : Type} (c : py A) (k : A -> py B) (b : B) :
  Py.bind c k = Return b -> exists a, c = Return a /\ k a = Return b.
Proof.
  destruct c as [a|e]; simpl; intros H; [exists a; auto | discriminate].
Qed.

(** Splits a hypothesis [x <- c ;; k = Return b] into its steps. *)
Ltac unbind H :=
  let a := fresh "v" in
  let Ha := fresh "Hv" in
  apply bind_inv in H; destruct H as (a & Ha & H).

(** ** Dictionaries *)

Section DictFacts.
Context {V : Type}.
Implicit Types (m : list (string * V)) (k : string) (v : V).

Lemma get_set_same k v m : Dict.get k (Dict.set k v m) = Some v.
Proof.
  induction m as [|[k' v'] m IH]; simpl.
  - now rewrite String.eqb_refl.
  - destruct (String.eqb k' k) eqn:E; simpl.
    + now rewrite String.eqb_refl.
    + now rewrite E.
Qed.

Lemma get_set_other k k' v m :
  k <> k' -> Dict.get k' (Dict.set k v m) = Dict.get k' m.
Proof.
  intros Hne. induction m as [|[k0 v0] m IH]; simpl.
  - destruct (String.eqb k k') eqn:E; [apply String.eqb_eq in E; tauto|easy].
  - destruct (String.eqb k0 k) eqn:E; simpl.
    + apply String.eqb_eq in E; subst k0.
      destruct (String.eqb k k') eqn:E';
        [apply String.eqb_eq in E'; tauto|easy].
    + now rewrite IH.
Qed.

Lemma get_del_same k m : Dict.get k (Dict.del k m) = None.
Proof.
  induction m as [|[k' v'] m IH]; simpl; [easy|].
  destruct (String.eqb k' k) eqn:E; simpl; [easy|now rewrite E].
Qed.

Lemma get_del_other k k' m :
  k <> k' -> Dict.get k' (Dict.del k m) = Dict.get k' m.
Proof.
  intros Hne. induction m as [|[k0 v0] m IH]; simpl; [easy|].
  destruct (String.eqb k0 k) eqn:E; simpl.
  - apply String.eqb_eq in E; subst k0.
    destruct (String.eqb k k') eqn:E'; [apply String.eqb_eq in E'; tauto|easy].
  - now rewrite IH.
Qed.

End DictFacts.

(** ** Equality of JSON values is decided by [json_eqb] *)

Lemma json_eqb_eq (a b : json) : json_eqb a b = true <-> a = b.
Proof.
  revert b. induction a as [| x | x | x | l IH | m IH] using json_nested_ind;
    intros b; destruct b as [| y | y | y | l' | m']; simpl;
    try (split; [discriminate | intros H; discriminate H]);
    try (split; reflexivity).
  - rewrite Bool.eqb_true_iff. split; congruence.
  - rewrite Z.eqb_eq. split; congruence.
  - rewrite String.eqb_eq. split; congruence.
  - revert l'. induction IH as [|x xs Hx _ IHxs]; intros [|y ys];
      try (split; [discriminate | intros H; discriminate H]);
      try (split; reflexivity).
    rewrite andb_true_iff, Hx, (IHxs ys). split.
    + intros [-> H]. now injection H as ->.
    + intros H. injection H as -> ->. auto.
  - revert m'. induction IH as [|[k x] xs Hx _ IHxs]; intros [|[k' y] ys];
      try (split; [discriminate | intros H; discriminate H]);
      try (split; reflexivity).
    simpl in Hx.
    rewrite !andb_true_iff, String.eqb_eq, Hx, (IHxs ys). split.
    + intros [[-> ->] H]. now injection H as ->.
    + intros H. injection H as -> -> ->. auto.
Qed.

(** ** Substring search *)

Lemma prefix_spec (n h : string) :
  String.prefix n h = true <-> exists b : string, h = (n ++ b)%string.
Proof.
  revert h. induction n as [|c n IH]; intros h; simpl.
  - split; [intros _; now exists h | intros _; now destruct h].
  - destruct h as [|c' h]; simpl.
    + split; [discriminate | intros [b Hb]; discriminate Hb].
    + destruct (ascii_dec c c') as [->|Hne].
      * rewrite IH. split; intros [b Hb]; exists b; congruence.
      * split; [discriminate | intros [b Hb]; congruence].
Qed.

Lemma contains_here (n h : string) :
  String.prefix n h = true -> contains n h = true.
Proof. intros H. destruct h; cbn [contains]; now rewrite H. Qed.

Lemma contains_later (n : string) (c : ascii) (h : string) :
  contains n h = true -> contains n (String c h) = true.
Proof.
  intros H. cbn [contains].
  destruct (String.prefix n (String c h)); [reflexivity | exact H].
Qed.

Lemma contains_spec (n h : string) :
  contains n h = true <-> Spec.Substring n h.
Proof.
  split.
  - induction h as [|c h IH]; cbn [contains].
    + destruct (String.prefix n "") eqn:E; [|discriminate].
      intros _. apply prefix_spec in E as [b Hb]. now exists ""%string, b.
    + destruct (String.prefix n (String c h)) eqn:E.
      * intros _. apply prefix_spec in E as [b Hb]. now exists ""%string, b.
      * intros H. destruct (IH H) as (a & b & ->). now exists (String c a), b.
  - intros (a & b & ->). induction a as [|c a IH]; simpl append.
    + apply contains_here, prefix_spec. now exists b.
    + now apply contains_later.
Qed.

(** ** The validity probe *)

Lemma classify_spec (text : string) :
  Profs.classify text = false <->
  Spec.Substring Profs.not_found_marker text \/
  Spec.Substring Profs.no_ratings_marker text.
Proof.
  unfold Profs.classify. rewrite negb_false_iff, orb_true_iff.
  now rewrite !contains_spec.
Qed.

(** C6.  When the page of a school contains the not-found marker or the
    no-ratings marker, [school_valid] answers [False] and [get_profs]
    returns the empty list after the probe alone: no request is posted,
    whatever the fuel.  When the page contains neither marker,
    [school_valid] answers [True]. *)
Theorem validity_short_circuit (fuel : nat) (e : env)
    (school_number page_size : Z) (pages : option Z) (text : string) :
  page_of_school e school_number = Return text ->
  (Spec.Substring Profs.not_found_marker text \/
   Spec.Substring Profs.no_ratings_marker text ->
   Profs.school_valid e school_number = Return false /\
   Profs.get_profs fuel e school_number page_size pages
     = (Some (Return []), [Get school_number]) /\
   posts (snd (Profs.get_profs fuel e school_number page_size pages)) = [])
  /\
  (~ Spec.Substring Profs.not_found_marker text ->
   ~ Spec.Substring Profs.no_ratings_marker text ->
   Profs.school_valid e school_number = Return true).
Proof.
  intros Hpage. split.
  - intros H. apply classify_spec in H.
    assert (Hv : Profs.school_valid e school_number = Return false).
    { unfold Profs.school_valid. rewrite Hpage. simpl. now rewrite H. }
    unfold Profs.get_profs. rewrite Hv. repeat split.
  - intros H1 H2. unfold Profs.school_valid. rewrite Hpage. simpl.
    destruct (Profs.classify text) eqn:E; [reflexivity|].
    apply classify_spec in E. tauto.
Qed.

Lemma validity_short_circuit_witness :
  let e := mkEnv Mock.unknown_school (Mock.sequence []) in
  page_of_school e 7 = Return
    "<html>We couldn&#x27;t find the school you were looking for</html>" /\
  Profs.school_valid e 7 = Return false /\
  Profs.get_profs 0 e 7 1000 None = (Some (Return []), [Get 7]) /\
  posts (snd (Profs.get_profs 0 e 7 1000 None)) = [].
Proof.
  intros e. split; [reflexivity|].
  apply (validity_short_circuit 0 e 7 1000 None
           "<html>We couldn&#x27;t find the school you were looking for</html>");
    [reflexivity|].
  left. apply contains_spec. vm_compute. reflexivity.
Defined.

(** ** Loops over lists *)

Lemma for_each_app {A B : Type} (f : A -> py B) (l1 l2 : list A)
    (r : list B) :
  for_each f (l1 ++ l2) = Return r <->
  exists r1 r2, for_each f l1 = Return r1 /\ for_each f l2 = Return r2 /\
                r = r1 ++ r2.
Proof.
  revert r. induction l1 as [|x l1 IH]; intros r; simpl.
  - split.
    + intros H. now exists [], r.
    + intros (r1 & r2 & H1 & H2 & ->). injection H1 as <-. exact H2.
  - destruct (f x) as [y|ex]; simpl.
    + destruct (for_each f (l1 ++ l2)) as [ys|ex] eqn:E; simpl.
      * destruct (proj1 (IH ys) eq_refl) as (r1 & r2 & H1 & H2 & ->).
        rewrite H1; simpl. split.
        -- intros H. injection H as <-. now exists (y :: r1), r2.
        -- intros (q1 & q2 & Hq1 & Hq2 & ->). injection Hq1 as <-.
           rewrite H2 in Hq2. now injection Hq2 as <-.
      * split; [discriminate|].
        intros (q1 & q2 & Hq1 & Hq2 & ->).
        destruct (for_each f l1) as [r1|] eqn:E1; [|discriminate].
        assert (C : @Raise (list B) ex = Return (r1 ++ q2))
          by (apply IH; now exists r1, q2).
        discriminate C.
    + split; [discriminate|]. intros (r1 & r2 & H1 & _). discriminate H1.
Qed.

Lemma for_each_Forall2 {A B : Type} (f : A -> py B) (l : list A)
    (r : list B) :
  for_each f l = Return r -> Forall2 (fun x y => f x = Return y) l r.
Proof.
  revert r. induction l as [|x l IH]; simpl; intros r H.
  - injection H as <-. constructor.
  - unbind H. unbind H. injection H as <-. constructor; auto.
Qed.

(** ** The professors paginator, edge by edge *)

Ltac step_binds :=
  repeat match goal with
         | |- context [Py.bind ?c _] =>
             lazymatch c with
             | Py.bind _ _ => fail
             | _ => destruct c; cbn [Py.bind]
             end
         end.

Lemma add_edge_spec (results : list json) (edge : json) :
  Profs.add_edge results edge =
  if Spec.skipped edge then Return results
  else r <- Spec.promote edge ;; Return (results ++ [r]).
Proof.
  unfold Profs.add_edge, Spec.skipped, Spec.promote, Spec.typename_of.
  destruct (getitem edge "node") as [node|ex]; cbn [Py.bind]; [|reflexivity].
  destruct (getitem node "__typename") as [tn|ex]; cbn [Py.bind];
    [|reflexivity].
  destruct (eq_str tn "Teacher"); cbn [negb]; [|reflexivity].
  step_binds; reflexivity.
Qed.

Lemma add_edges_spec (results : list json) (es : list json) :
  Profs.add_edges results es =
  rs <- for_each Spec.promote (filter Spec.kept es) ;;
  Return (results ++ rs).
Proof.
  revert results. induction es as [|e es IH]; intros results; simpl.
  - now rewrite app_nil_r.
  - rewrite add_edge_spec. unfold Spec.kept at 1.
    destruct (Spec.skipped e); simpl.
    + apply IH.
    + destruct (Spec.promote e) as [r|ex]; simpl; [|reflexivity].
      rewrite IH.
      destruct (for_each Spec.promote (filter Spec.kept es)); simpl;
        [|reflexivity].
      now rewrite <- app_assoc.
Qed.

Lemma eq_str_true (j : json) (s : string) :
  eq_str j s = true <-> j = JStr s.
Proof.
  destruct j; simpl; try (split; [discriminate | intros H; discriminate H]).
  rewrite String.eqb_eq. split; congruence.
Qed.

Lemma promote_kept (edge r : json) :
  Spec.promote edge = Return r -> Spec.skipped edge = false ->
  exists node,
    getitem edge "node" = Return node /\
    getitem node "__typename" = Return (JStr "Teacher") /\
    getitem r "__typename" = Return (JStr "Teacher") /\
    Spec.promoted node r.
Proof.
  unfold Spec.promote, Spec.skipped, Spec.typename_of. intros H Hk.
  destruct (getitem edge "node") as [node|] eqn:Hn; [|discriminate].
  cbn [Py.bind] in *.
  destruct (getitem node "__typename") as [tn|] eqn:Ht; [|discriminate].
  cbn [Py.bind] in *. apply negb_false_iff, eq_str_true in Hk. subst tn.
  destruct node as [| | | | |m]; try discriminate Ht.
  simpl in Ht. destruct (Dict.get "__typename" m) as [tn|] eqn:Gt;
    [|discriminate]. injection Ht as ->.
  simpl in H. destruct (Dict.get "school" m) as [school|] eqn:Gs;
    [|discriminate]. cbn [Py.bind] in H.
  destruct (getitem school "id") as [sid|] eqn:Gid; [|discriminate].
  cbn [Py.bind setitem getitem] in H.
  rewrite get_set_other, Gs in H by discriminate. cbn [Py.bind] in H.
  destruct (getitem school "name") as [sname|] eqn:Gname; [|discriminate].
  cbn [Py.bind setitem delitem] in H.
  destruct (Dict.has "school" _); [|discriminate]. injection H as <-.
  exists (JObj m). repeat split.
  - simpl. now rewrite Gt.
  - simpl. rewrite get_del_other, !get_set_other, Gt by discriminate.
    reflexivity.
  - exists school, sid, sname. simpl. rewrite Gs.
    rewrite get_del_same.
    rewrite !get_del_other, get_set_same by discriminate.
    rewrite get_set_other, get_set_same by discriminate.
    repeat split; assumption.
Qed.

(** ** The reviews paginator, node by node *)


Lemma add_nodes_ok (prof_id : string) (es results rs : list json) :
  for_each (Reviews.reshape prof_id) es = Return rs ->
  Reviews.add_nodes prof_id results es = (results ++ rs, None).
Proof.
  revert results rs. induction es as [|e es IH]; simpl; intros results rs H.
  - injection H as <-. now rewrite app_nil_r.
  - unbind H. unbind H. injection H as <-. rewrite Hv.
    rewrite (IH _ _ Hv0), <- app_assoc. reflexivity.
Qed.

Lemma add_nodes_stops (prof_id : string) (pre post results rs : list json)
    (bad : json) (ex : exn) :
  for_each (Reviews.reshape prof_id) pre = Return rs ->
  Reviews.reshape prof_id bad = Raise ex ->
  Reviews.add_nodes prof_id results (pre ++ bad :: post)
  = (results ++ rs, Some ex).
Proof.
  revert results rs. induction pre as [|e pre IH]; simpl;
    intros results rs H Hbad.
  - injection H as <-. now rewrite Hbad, app_nil_r.
  - unbind H. unbind H. injection H as <-. rewrite Hv.
    rewrite (IH _ _ Hv0 Hbad), <- app_assoc. reflexivity.
Qed.


(** ** Runs over a sequence of pages *)

Lemma posts_emit_post {A : Type} (rq : request) (r : run A) :
  posts (snd (emit (Post rq) r)) = rq :: posts (snd r).
Proof. reflexivity. Qed.

Lemma ends_at_last_cons (p : Spec.page) (ps : list Spec.page) :
  Spec.ends_at_last (p :: ps) ->
  (ps = [] /\ truthy (Spec.has_next p) = false) \/
  (ps <> [] /\ truthy (Spec.has_next p) = true /\ Spec.ends_at_last ps).
Proof.
  simpl. destruct ps; [left; auto | right]. destruct H. repeat split; auto.
  discriminate.
Qed.

Lemma removelast_cons {A : Type} (x : A) (l : list A) :
  l <> [] -> removelast (x :: l) = x :: removelast l.
Proof. destruct l; [congruence | reflexivity]. Qed.

Section ProfsRun.

Variables (srv : service) (sid : string) (page_size : Z).

Lemma profs_loop_pages (ps : list Spec.page) :
  forall (fuel n : nat) (j : option json) (cur : json)
         (results : list json) (pages_so_far : Z) (recs : list json),
    Spec.ends_at_last ps ->
    (List.length ps <= fuel)%nat ->
    Spec.serves Spec.profs_body srv n ps ->
    for_each Spec.promote (filter Spec.kept (flat_map Spec.edges ps))
      = Return recs ->
    exists t,
      Profs.get_profs_loop fuel srv sid page_size None n j cur results
        pages_so_far = (Some (Return (results ++ recs)), t) /\
      map cursor (posts t)
        = cur :: map Spec.end_cursor (removelast ps) /\
      Forall (fun ev => is_post ev = true) t.
Proof.
  induction ps as [|p ps IH]; intros fuel n j cur results psf recs
    Hend Hfuel Hsrv Hrecs; [destruct Hend|].
  destruct fuel as [|fuel]; [simpl in Hfuel; lia|].
  destruct Hsrv as [Hp Hsrv].
  simpl flat_map in Hrecs. rewrite filter_app in Hrecs.
  apply for_each_app in Hrecs as (r1 & r2 & Hr1 & Hr2 & ->).
  cbn [Profs.get_profs_loop].
  destruct (Hp (mkRequest ProfsAtSchool page_size cur sid))
    as (jv & -> & page_info & ej & -> & Hi & Hh & Hc).
  cbn [Py.bind]. rewrite Hi. cbn [Py.bind].
  rewrite add_edges_spec, Hr1. cbn [Py.bind].
  rewrite Hh, Hc. cbn [Py.bind Profs.cap_reached].
  destruct (ends_at_last_cons _ _ Hend) as [[-> Hf]|(Hne & Ht & Hend')].
  - rewrite Hf. simpl in Hr2. injection Hr2 as <-. rewrite app_nil_r.
    eexists. split; [reflexivity|]. split; [reflexivity|].
    repeat constructor.
  - rewrite Ht.
    destruct (IH fuel (S n) (Some jv) (Spec.end_cursor p) (results ++ r1)
                (psf + 1) r2 Hend' ltac:(simpl in Hfuel; lia) Hsrv Hr2)
      as (t & Ht' & Hcur & Hall).
    rewrite Ht'. eexists. split; [unfold emit; simpl; now rewrite app_assoc|].
    split.
    + simpl snd. cbn [posts flat_map app map]. fold (posts t).
      rewrite Hcur, removelast_cons by assumption. reflexivity.
    + constructor; [reflexivity | exact Hall].
Qed.

End ProfsRun.

Section ReviewsRun.

Variables (srv : service) (prof_id : string) (num_reviews : Z).

Lemma reviews_loop_pages (ps : list Spec.page) :
  forall (fuel n : nat) (cur : json) (results recs : list json),
    Spec.ends_at_last ps ->
    (List.length ps <= fuel)%nat ->
    Spec.serves Spec.reviews_body srv n ps ->
    for_each (Reviews.reshape prof_id) (flat_map Spec.edges ps)
      = Return recs ->
    exists t,
      Reviews.get_prof_reviews_loop fuel srv prof_id num_reviews n cur
        results = (Some (Reviews.mkResult (results ++ recs) false), t) /\
      map cursor (posts t)
        = cur :: map Spec.end_cursor (removelast ps) /\
      Forall (fun ev => is_post ev = true) t.
Proof.
  induction ps as [|p ps IH]; intros fuel n cur results recs
    Hend Hfuel Hsrv Hrecs; [destruct Hend|].
  destruct fuel as [|fuel]; [simpl in Hfuel; lia|].
  destruct Hsrv as [Hp Hsrv].
  simpl flat_map in Hrecs.
  apply for_each_app in Hrecs as (r1 & r2 & Hr1 & Hr2 & ->).
  cbn [Reviews.get_prof_reviews_loop].
  destruct (Hp (mkRequest ProfReviews (Reviews.page_size num_reviews) cur
                  prof_id)) as (rj & -> & He & Hi).
  unfold Spec.reviews_edges in He. unfold Spec.reviews_page_info in Hi.
  rewrite He, (add_nodes_ok _ _ _ _ Hr1), Hi.
  destruct (ends_at_last_cons _ _ Hend) as [[-> Hf]|(Hne & Ht & Hend')].
  - rewrite Hf. simpl in Hr2. injection Hr2 as <-. rewrite app_nil_r.
    eexists. split; [reflexivity|]. split; [reflexivity|].
    repeat constructor.
  - rewrite Ht.
    destruct (IH fuel (S n) (Spec.end_cursor p) (results ++ r1) r2 Hend'
                ltac:(simpl in Hfuel; lia) Hsrv Hr2) as (t & Ht' & Hcur & Hall).
    rewrite Ht'. eexists. split; [unfold emit; simpl; now rewrite app_assoc|].
    split.
    + simpl snd. cbn [posts flat_map app map]. fold (posts t).
      rewrite Hcur, removelast_cons by assumption. reflexivity.
    + constructor; [reflexivity | exact Hall].
Qed.

End ReviewsRun.

(** C3 (amended).  Take any sequence of well-formed pages whose
    [hasNextPage] is true on every page but the last.  With at least as
    much fuel as there are pages, both paginators end; they post one
    request per page, each carrying the cursor of the page before; and the
    returned list is the concatenation, in page order, of the reshaped
    items of the pages, each item once, where the professors paginator
    leaves out the items whose [__typename] is not ['Teacher']. *)
Theorem pagination_terminates (ps : list Spec.page) (fuel : nat) :
  Spec.ends_at_last ps ->
  (List.length ps <= fuel)%nat ->
  (forall (e : env) (school_number page_size : Z) (text : string)
          (recs : list json),
     page_of_school e school_number = Return text ->
     Profs.classify text = true ->
     Spec.serves Spec.profs_body (graphql e) 0 ps ->
     for_each Spec.promote (filter Spec.kept (flat_map Spec.edges ps))
       = Return recs ->
     let r := Profs.get_profs fuel e school_number page_size None in
     fst r = Some (Return recs) /\
     map cursor (posts (snd r))
       = JStr "" :: map Spec.end_cursor (removelast ps) /\
     List.length (posts (snd r)) = List.length ps)
  /\
  (forall (srv : service) (prof_id : string) (num_reviews : Z)
          (recs : list json),
     Spec.serves Spec.reviews_body srv 0 ps ->
     for_each (Reviews.reshape prof_id) (flat_map Spec.edges ps)
       = Return recs ->
     let r := Reviews.get_prof_reviews fuel srv prof_id num_reviews in
     fst r = Some (Reviews.mkResult recs false) /\
     map cursor (posts (snd r))
       = JStr "" :: map Spec.end_cursor (removelast ps) /\
     List.length (posts (snd r)) = List.length ps).
Proof.
  intros Hend Hfuel.
  assert (Hlen : forall (l : list request),
            map cursor l = JStr "" :: map Spec.end_cursor (removelast ps) ->
            List.length l = List.length ps).
  { intros l Hl. apply (f_equal (@List.length json)) in Hl.
    rewrite length_map in Hl. rewrite Hl. simpl. rewrite length_map.
    destruct ps as [|p ps']; [destruct Hend|].
    assert (E : p :: ps' = removelast (p :: ps') ++ [last (p :: ps') p])
      by (apply app_removelast_last; discriminate).
    rewrite E at 2. rewrite length_app. simpl. lia. }
  split.
  - intros e school_number page_size text recs Hpage Hvalid Hsrv Hrecs.
    unfold Profs.get_profs, Profs.school_valid.
    rewrite Hpage. cbn [Py.bind]. rewrite Hvalid.
    destruct (profs_loop_pages (graphql e) (Profs.school_id school_number)
                page_size ps fuel 0%nat None (JStr "") [] 0 recs
                Hend Hfuel Hsrv Hrecs) as (t & Ht & Hcur & _).
    rewrite Ht. cbn [emit fst snd posts flat_map app].
    fold (posts t). repeat split; auto.
  - intros srv prof_id num_reviews recs Hsrv Hrecs.
    unfold Reviews.get_prof_reviews.
    destruct (reviews_loop_pages srv prof_id num_reviews ps fuel 0%nat
                (JStr "") [] recs Hend Hfuel Hsrv Hrecs)
      as (t & Ht & Hcur & _).
    rewrite Ht. cbn [fst snd]. repeat split; auto.
Qed.

Lemma pagination_terminates_witness :
  let pid := "VGVhY2hlci00Mg==" in
  let ps := [Spec.mkPage (map Mock.edge_of [Mock.review "A"; Mock.review "B"])
               (JBool true) (JStr "c1");
             Spec.mkPage (map Mock.edge_of [Mock.review "C"; Mock.review "D"])
               (JBool true) (JStr "c2");
             Spec.mkPage (map Mock.edge_of [Mock.review "E"])
               (JBool false) (JStr "c3")] in
  let srv := Mock.sequence
               [Body (Mock.reviews_page [Mock.review "A"; Mock.review "B"]
                        true "c1");
                Body (Mock.reviews_page [Mock.review "C"; Mock.review "D"]
                        true "c2");
                Body (Mock.reviews_page [Mock.review "E"] false "c3")] in
  let r := Reviews.get_prof_reviews 3 srv pid 2 in
  Spec.ends_at_last ps /\
  (List.length ps <= 3)%nat /\
  fst r = Some (Reviews.mkResult
                  (map (fun c => Mock.review_flat c pid)
                       ["A"; "B"; "C"; "D"; "E"]) false) /\
  map cursor (posts (snd r)) = [JStr ""; JStr "c1"; JStr "c2"] /\
  List.length (posts (snd r)) = 3%nat.
Proof.
  intros pid ps srv r.
  assert (Hend : Spec.ends_at_last ps) by (simpl; auto).
  assert (Hfuel : (List.length ps <= 3)%nat) by (simpl; lia).
  split; [exact Hend|]. split; [exact Hfuel|].
  apply (proj2 (pagination_terminates ps 3 Hend Hfuel) srv pid 2).
  - simpl. repeat split; intros rq; eexists; (split; [reflexivity|]);
      split; reflexivity.
  - reflexivity.
Defined.

(** C3, as stated, fails on the professors paginator: the service serves
    one page that says there is no further page and carries one item; the
    returned list is empty, because the item is not a ['Teacher']. *)
Lemma pagination_drops_non_teacher :
  let item := Mock.department "Physics" in
  let ps := [Spec.mkPage [Mock.edge_of item] (JBool false) (JStr "")] in
  let e := mkEnv Mock.open_school
             (Mock.sequence [Body (Mock.profs_page [item] false "")]) in
  Spec.ends_at_last ps /\
  Spec.serves Spec.profs_body (graphql e) 0 ps /\
  flat_map Spec.edges ps = [Mock.edge_of item] /\
  fst (Profs.get_profs 1 e 42 1000 None) = Some (Return []).
Proof.
  intros item ps e. split; [reflexivity|]. split.
  - split; [|exact I]. intros rq. eexists. split; [reflexivity|].
    eexists _, _. repeat split; reflexivity.
  - split; vm_compute; reflexivity.
Qed.

(** ** What the paginators append *)

Lemma for_each_In {A B : Type} (f : A -> py B) (l : list A) (r : list B) :
  for_each f l = Return r ->
  forall y, In y r -> exists x, In x l /\ f x = Return y.
Proof.
  intros H. apply for_each_Forall2 in H.
  induction H as [|x y l r Hxy _ IH]; intros z Hz; [destruct Hz|].
  destruct Hz as [<-|Hz].
  - exists x. split; [now left | assumption].
  - destruct (IH z Hz) as (x' & Hx' & Hf). exists x'. split; [now right|auto].
Qed.

Lemma fst_emit {A : Type} (ev : event) (r : run A) :
  fst (emit ev r) = fst r.
Proof. reflexivity. Qed.

Section ProfsRecords.

Variables (srv : service) (sid : string) (page_size : Z) (pages : option Z).
Variable R : json -> Prop.
Hypothesis R_promote :
  forall e r, Spec.profs_served srv e -> Spec.skipped e = false ->
              Spec.promote e = Return r -> R r.

Lemma profs_loop_records (fuel : nat) :
  forall (n : nat) (j : option json) (cur : json) (results : list json)
         (pages_so_far : Z) (out : list json),
    Forall R results ->
    fst (Profs.get_profs_loop fuel srv sid page_size pages n j cur results
           pages_so_far) = Some (Return out) ->
    Forall R out.
Proof.
  induction fuel as [|fuel IH]; intros n j cur results psf out HR H;
    [discriminate H|].
  cbn [Profs.get_profs_loop] in H. rewrite fst_emit in H.
  destruct (srv n _) as [|[|]|jv] eqn:Hsrv.
  - discriminate H.
  - destruct j as [jv|]; [|discriminate H].
    destruct (getitem jv "errors"); [|discriminate H].
    simpl in H. injection H as <-. exact HR.
  - simpl in H. injection H as <-. exact HR.
  - destruct (Profs.envelope jv) as [[page_info ej]|ex] eqn:Henv.
    + destruct (iter ej) as [es|ex] eqn:Hes; [|discriminate H].
      cbn [Py.bind] in H. rewrite add_edges_spec in H.
      destruct (for_each Spec.promote (filter Spec.kept es)) as [rs|ex]
        eqn:Hrs; [|discriminate H].
      cbn [Py.bind] in H.
      assert (HR' : Forall R (results ++ rs)).
      { apply Forall_app. split; [exact HR|]. apply Forall_forall.
        intros r Hr. destruct (for_each_In _ _ _ Hrs r Hr) as (e & He & Hp).
        apply filter_In in He as [He Hk].
        apply (R_promote e r); [|now apply negb_true_iff|exact Hp].
        unfold Spec.profs_served. eauto 10. }
      destruct (getitem page_info "hasNextPage") as [h|]; [|discriminate H].
      destruct (getitem page_info "endCursor") as [c|]; [|discriminate H].
      cbn [Py.bind] in H.
      destruct (Profs.cap_reached pages (psf + 1)).
      * simpl in H. injection H as <-. exact HR'.
      * destruct (truthy h).
        -- eapply IH; [exact HR'|exact H].
        -- simpl in H. injection H as <-. exact HR'.
    + destruct ex; try discriminate H. simpl in H. injection H as <-.
      exact HR.
Qed.

End ProfsRecords.

(** Where a professor record comes from. *)
Lemma profs_records_origin (fuel : nat) (e : env)
    (school_number page_size : Z) (pages : option Z) (out : list json) :
  fst (Profs.get_profs fuel e school_number page_size pages)
    = Some (Return out) ->
  Forall (fun r => exists edge node,
            Spec.profs_served (graphql e) edge /\
            getitem edge "node" = Return node /\
            getitem node "__typename" = Return (JStr "Teacher") /\
            getitem r "__typename" = Return (JStr "Teacher") /\
            Spec.promoted node r) out.
Proof.
  unfold Profs.get_profs. rewrite fst_emit.
  destruct (Profs.school_valid e school_number) as [[|]|ex]; intros H.
  - eapply profs_loop_records; [| |exact H]; [|constructor].
    intros edge r Hs Hk Hp.
    destruct (promote_kept edge r Hp Hk) as (node & Hn & Ht & Hrt & Hpr).
    now exists edge, node.
  - simpl in H. injection H as <-. constructor.
  - discriminate H.
Qed.

Section ReviewsRecords.

Variables (srv : service) (prof_id : string) (num_reviews : Z).
Variable R : json -> Prop.
Hypothesis R_reshape :
  forall e r, Reviews.reshape prof_id e = Return r -> R r.


End ReviewsRecords.



(** ** Skipped edges do not show *)

Lemma skipped_spec (edge : json) :
  Spec.skipped edge = true <->
  exists node tn,
    getitem edge "node" = Return node /\
    getitem node "__typename" = Return tn /\
    tn <> JStr "Teacher".
Proof.
  unfold Spec.skipped, Spec.typename_of. split.
  - destruct (getitem edge "node") as [node|]; [|discriminate].
    cbn [Py.bind].
    destruct (getitem node "__typename") as [tn|] eqn:Ht; [|discriminate].
    intros H. exists node, tn. split; [reflexivity|]. split; [exact Ht|].
    intros ->. vm_compute in H. discriminate H.
  - intros (node & tn & -> & Ht & Hne). cbn [Py.bind]. rewrite Ht.
    apply negb_true_iff. destruct (eq_str tn "Teacher") eqn:E; [|reflexivity].
    apply eq_str_true in E. contradiction.
Qed.

Lemma add_edges_filter (results es : list json) :
  Profs.add_edges results es
  = Profs.add_edges results (filter Spec.kept es).
Proof.
  rewrite !add_edges_spec. f_equal. f_equal.
  induction es as [|e es IH]; simpl; [reflexivity|].
  destruct (Spec.kept e) eqn:E; simpl; [rewrite E|]; now rewrite <- IH.
Qed.

Section Agreement.

Variables (srv srv' : service).
Hypothesis Hagree : forall n rq, Spec.agree (srv n rq) (srv' n rq).
Variables (sid : string) (page_size : Z) (pages : option Z).

Lemma profs_loop_agree (fuel : nat) :
  forall (n : nat) (j j' : option json) (cur : json) (results : list json)
         (pages_so_far : Z),
    option_map Spec.errors_lookup j = option_map Spec.errors_lookup j' ->
    Profs.get_profs_loop fuel srv sid page_size pages n j cur results
      pages_so_far
    = Profs.get_profs_loop fuel srv' sid page_size pages n j' cur results
        pages_so_far.
Proof.
  induction fuel as [|fuel IH]; intros n j j' cur results psf Hj;
    [reflexivity|].
  cbn [Profs.get_profs_loop]. f_equal.
  pose proof (Hagree n (mkRequest ProfsAtSchool page_size cur sid)) as Ha.
  inversion Ha as [r Hr1 Hr2 | jv jv' page_info ej ej' es es' He He' Hi Hi'
                                 Hf Herr Hr1 Hr2].
  - destruct (srv n _) as [|[|]|jv]; try reflexivity.
    + destruct j as [a|], j' as [b|]; try discriminate Hj; [|reflexivity].
      simpl in Hj. injection Hj as Hj. unfold Spec.errors_lookup in Hj.
      destruct (getitem a "errors"), (getitem b "errors"); simpl in *;
        congruence.
    + destruct (Profs.envelope jv) as [[page_info ej]|ex]; [|reflexivity].
      destruct (Py.bind (iter ej) _); [|reflexivity].
      destruct (Py.bind (getitem page_info "hasNextPage") _) as [[h c]|];
        [|reflexivity].
      destruct (Profs.cap_reached pages (psf + 1)); [reflexivity|].
      destruct (truthy h); [|reflexivity]. now apply IH.
  - rewrite He, He', Hi, Hi'. cbn [Py.bind].
    rewrite (add_edges_filter results es), (add_edges_filter results es'), Hf.
    destruct (Profs.add_edges results (filter Spec.kept es')); [|reflexivity].
    destruct (Py.bind (getitem page_info "hasNextPage") _) as [[h c]|];
      [|reflexivity].
    destruct (Profs.cap_reached pages (psf + 1)); [reflexivity|].
    destruct (truthy h); [|reflexivity]. apply IH. simpl. now rewrite Herr.
Qed.

End Agreement.

(** C9.  An edge whose node has a [__typename] other than ['Teacher'] is
    passed over: nothing is appended and nothing is raised.  A page gives
    the same records with such edges as without them, and a service whose
    pages differ from another's in such edges only is paginated the same
    way: same outcome, same requests.  Every record that [get_profs]
    returns comes from a served node whose [__typename] is ['Teacher']. *)
Theorem non_teachers_are_skipped (fuel : nat) (e e' : env)
    (school_number page_size : Z) (pages : option Z) :
  page_of_school e school_number = page_of_school e' school_number ->
  (forall n rq, Spec.agree (graphql e n rq) (graphql e' n rq)) ->
  (forall results edge node tn,
     getitem edge "node" = Return node ->
     getitem node "__typename" = Return tn ->
     tn <> JStr "Teacher" ->
     Profs.add_edge results edge = Return results) /\
  (forall results es,
     Profs.add_edges results es
     = Profs.add_edges results (filter Spec.kept es)) /\
  Profs.get_profs fuel e school_number page_size pages
  = Profs.get_profs fuel e' school_number page_size pages /\
  (forall out,
     fst (Profs.get_profs fuel e school_number page_size pages)
       = Some (Return out) ->
     Forall (fun r => exists edge node,
               Spec.profs_served (graphql e) edge /\
               getitem edge "node" = Return node /\
               getitem node "__typename" = Return (JStr "Teacher") /\
               getitem r "__typename" = Return (JStr "Teacher")) out).
Proof.
  intros Hpage Hagree. repeat split.
  - intros results edge node tn Hn Ht Hne. rewrite add_edge_spec.
    replace (Spec.skipped edge) with true; [reflexivity|].
    symmetry. apply skipped_spec. now exists node, tn.
  - apply add_edges_filter.
  - unfold Profs.get_profs, Profs.school_valid. rewrite Hpage.
    destruct (Py.bind (page_of_school e' school_number) _) as [[|]|];
      try reflexivity.
    f_equal. now apply profs_loop_agree.
  - intros out H.
    eapply Forall_impl; [|exact (profs_records_origin _ _ _ _ _ _ H)].
    intros r (edge & node & Hs & Hn & Ht & Hrt & _). now exists edge, node.
Qed.

Lemma non_teachers_are_skipped_witness :
  let e := mkEnv Mock.open_school
             (Mock.sequence
                [Body (Mock.profs_page
                         [Mock.teacher "Ada"; Mock.department "Physics";
                          Mock.teacher "Bob"] false "")]) in
  let e' := mkEnv Mock.open_school
              (Mock.sequence
                 [Body (Mock.profs_page
                          [Mock.teacher "Ada"; Mock.teacher "Bob"]
                          false "")]) in
  page_of_school e 42 = page_of_school e' 42 /\
  (forall n rq, Spec.agree (graphql e n rq) (graphql e' n rq)) /\
  Profs.get_profs 1 e 42 1000 None = Profs.get_profs 1 e' 42 1000 None /\
  fst (Profs.get_profs 1 e 42 1000 None)
    = Some (Return [Mock.teacher_flat "Ada"; Mock.teacher_flat "Bob"]).
Proof.
  intros e e'.
  assert (Hagree : forall n rq, Spec.agree (graphql e n rq) (graphql e' n rq)).
  { intros [|n] rq.
    - eapply Spec.agree_pages; reflexivity.
    - destruct n; apply Spec.agree_same. }
  split; [reflexivity|]. split; [exact Hagree|]. split; [|reflexivity].
  apply (non_teachers_are_skipped 1 e e' 42 1000 None eq_refl Hagree).
Defined.

(** ** A run that meets a bad page *)

Section ReviewsFailure.

Variables (srv : service) (prof_id : string) (num_reviews : Z).

(** Pages that all announce a further page are gone through one by one. *)
Lemma reviews_loop_prefix (ps : list Spec.page) :
  forall (fuel n : nat) (cur : json) (results recs : list json),
    Forall (fun p => truthy (Spec.has_next p) = true) ps ->
    Spec.serves Spec.reviews_body srv n ps ->
    for_each (Reviews.reshape prof_id) (flat_map Spec.edges ps)
      = Return recs ->
    exists t cur',
      Forall (fun ev => is_post ev = true) t /\
      List.length t = List.length ps /\
      Reviews.get_prof_reviews_loop (List.length ps + fuel) srv prof_id
        num_reviews n cur results
      = (fst (Reviews.get_prof_reviews_loop fuel srv prof_id num_reviews
                (n + List.length ps) cur' (results ++ recs)),
         t ++ snd (Reviews.get_prof_reviews_loop fuel srv prof_id
                     num_reviews (n + List.length ps) cur'
                     (results ++ recs))).
Proof.
  induction ps as [|p ps IH]; intros fuel n cur results recs Hall Hsrv Hrecs.
  - simpl in Hrecs. injection Hrecs as <-. exists [], cur.
    rewrite app_nil_r, Nat.add_0_r. simpl.
    repeat split; [constructor|].
    now destruct (Reviews.get_prof_reviews_loop _ _ _ _ _ _ _).
  - inversion Hall as [|? ? Ht Hall']; subst. destruct Hsrv as [Hp Hsrv].
    simpl flat_map in Hrecs.
    apply for_each_app in Hrecs as (r1 & r2 & Hr1 & Hr2 & ->).
    cbn [List.length Nat.add Reviews.get_prof_reviews_loop].
    destruct (Hp (mkRequest ProfReviews (Reviews.page_size num_reviews) cur
                    prof_id)) as (rj & -> & He & Hi).
    unfold Spec.reviews_edges in He. unfold Spec.reviews_page_info in Hi.
    rewrite He, (add_nodes_ok _ _ _ _ Hr1), Hi, Ht.
    destruct (IH fuel (S n) (Spec.end_cursor p) (results ++ r1) r2 Hall'
                Hsrv Hr2) as (t & cur' & Hposts & Hlen & ->).
    exists (Post (mkRequest ProfReviews (Reviews.page_size num_reviews) cur
                    prof_id) :: t), cur'.
    rewrite Nat.add_succ_r, <- app_assoc. simpl.
    repeat split; [constructor; auto | now rewrite Hlen].
Qed.

Lemma reshape_without_thumbs (bad : json) (m : list (string * json)) :
  getitem bad "node" = Return (JObj m) ->
  Dict.get "thumbs" m = None ->
  Reviews.reshape prof_id bad = Raise (KeyError "thumbs").
Proof.
  intros Hn Hm. unfold Reviews.reshape. rewrite Hn.
  cbn [Py.bind setitem delitem]. unfold Dict.has.
  rewrite get_set_other, Hm by discriminate. reflexivity.
Qed.

Lemma reviews_loop_bad_node (fuel n : nat) (cur rj : json)
    (results pre post rs : list json) (bad : json) (ex : exn) :
  srv n (mkRequest ProfReviews (Reviews.page_size num_reviews) cur prof_id)
    = Body rj ->
  Spec.reviews_edges rj = Return (pre ++ bad :: post) ->
  for_each (Reviews.reshape prof_id) pre = Return rs ->
  Reviews.reshape prof_id bad = Raise ex ->
  Reviews.get_prof_reviews_loop (S fuel) srv prof_id num_reviews n cur
    results
  = (Some (Reviews.mkResult (results ++ rs) true),
     [Post (mkRequest ProfReviews (Reviews.page_size num_reviews) cur
              prof_id); Sleep 20]).
Proof.
  intros Hsrv He Hpre Hbad. cbn [Reviews.get_prof_reviews_loop].
  unfold Spec.reviews_edges in He.
  rewrite Hsrv, He, (add_nodes_stops _ _ _ _ _ _ _ Hpre Hbad). reflexivity.
Qed.

End ReviewsFailure.

Lemma posts_app (t1 t2 : list event) :
  posts (t1 ++ t2) = posts t1 ++ posts t2.
Proof. unfold posts. now rewrite flat_map_app. Qed.

Lemma posts_all (t : list event) :
  Forall (fun ev => is_post ev = true) t ->
  List.length (posts t) = List.length t.
Proof.
  induction 1 as [|ev t Hev _ IH]; [reflexivity|].
  destruct ev; try discriminate Hev. simpl. now rewrite <- IH.
Qed.

(** C10.  Let the pages before page [k] be well formed and announce a
    further page, and let page [k] carry, after the nodes [pre], a node
    that is a dict without the key [thumbs].  Then [del node["thumbs"]]
    raises [KeyError], and the whole run ends there: it returns the error
    flag [True] with the records of the earlier pages followed by those of
    [pre], after [k+1] requests and the cool-down. *)
Theorem missing_thumbs_fails_run (srv : service) (prof_id : string)
    (num_reviews : Z) (ps : list Spec.page) (fuel : nat)
    (recs pre post rs : list json) (rj bad : json)
    (m : list (string * json)) :
  Forall (fun p => truthy (Spec.has_next p) = true) ps ->
  Spec.serves Spec.reviews_body srv 0 ps ->
  for_each (Reviews.reshape prof_id) (flat_map Spec.edges ps) = Return recs ->
  (forall rq, srv (List.length ps) rq = Body rj) ->
  Spec.reviews_edges rj = Return (pre ++ bad :: post) ->
  for_each (Reviews.reshape prof_id) pre = Return rs ->
  getitem bad "node" = Return (JObj m) ->
  Dict.get "thumbs" m = None ->
  (List.length ps < fuel)%nat ->
  let r := Reviews.get_prof_reviews fuel srv prof_id num_reviews in
  Reviews.reshape prof_id bad = Raise (KeyError "thumbs") /\
  fst r = Some (Reviews.mkResult (recs ++ rs) true) /\
  List.length (posts (snd r)) = S (List.length ps) /\
  exists t, snd r = t ++ [Sleep 20].
Proof.
  intros Hall Hsrv Hrecs Hk He Hpre Hn Hm Hfuel r.
  pose proof (reshape_without_thumbs prof_id bad m Hn Hm) as Hbad.
  split; [exact Hbad|].
  destruct (reviews_loop_prefix srv prof_id num_reviews ps
              (fuel - List.length ps) 0 (JStr "") [] recs Hall Hsrv Hrecs)
    as (t & cur' & Hposts & Hlen & Hrun).
  replace (List.length ps + (fuel - List.length ps))%nat with fuel in Hrun
    by lia.
  destruct (fuel - List.length ps)%nat as [|k] eqn:Hk'; [lia|].
  rewrite (reviews_loop_bad_node srv prof_id num_reviews k _ cur' rj _ pre
             post rs bad _ (Hk _) He Hpre Hbad) in Hrun.
  subst r. unfold Reviews.get_prof_reviews. rewrite Hrun. cbn [fst snd].
  split; [reflexivity|]. split.
  - rewrite posts_app, length_app, (posts_all t Hposts), Hlen. simpl. lia.
  - exists (t ++ [Post (mkRequest ProfReviews
                          (Reviews.page_size num_reviews) cur' prof_id)]).
    now rewrite <- app_assoc.
Qed.

Lemma missing_thumbs_fails_run_witness :
  let pid := "VGVhY2hlci00Mg==" in
  let second := Mock.reviews_page
                  [Mock.review "B"; Mock.review_without_thumbs "C";
                   Mock.review "D"] false "c2" in
  let srv := Mock.sequence
               [Body (Mock.reviews_page [Mock.review "A"] true "c1");
                Body second] in
  let r := Reviews.get_prof_reviews 2 srv pid 10 in
  Spec.reviews_page_info second = Return (JBool false, JStr "c2") /\
  fst r = Some (Reviews.mkResult
                  [Mock.review_flat "A" pid; Mock.review_flat "B" pid] true)
  /\ List.length (posts (snd r)) = 2%nat.
Proof.
  intros pid second srv r. split; [reflexivity|].
  pose proof (missing_thumbs_fails_run srv pid 10
                [Spec.mkPage [Mock.edge_of (Mock.review "A")] (JBool true)
                   (JStr "c1")] 2
                [Mock.review_flat "A" pid]
                [Mock.edge_of (Mock.review "B")]
                [Mock.edge_of (Mock.review "D")]
                [Mock.review_flat "B" pid] second
                (Mock.edge_of (Mock.review_without_thumbs "C"))
                [("comment", JStr "C")]) as H.
  simpl in H. destruct H as (_ & H1 & H2 & _); auto.
  - split; [|exact I]. intros rq. eexists. split; [reflexivity|].
    split; reflexivity.
Defined.

(** ** Malformed responses *)





(** A transport error is not handled by [get_profs]: [session.post] is
    outside the [try], so the exception leaves the function and the
    records collected so far go with it. *)
Lemma get_profs_transport_error_propagates :
  let e := mkEnv Mock.open_school
             (Mock.sequence
                [Body (Mock.profs_page [Mock.teacher "Ada"] true "c1");
                 ConnectionFailed]) in
  fst (Profs.get_profs 2 e 42 1000 None) = Some (Raise ConnectionError).
Proof. reflexivity. Qed.

(** Keys read after the [try] are not handled either: without
    [hasNextPage] in the page info the [KeyError] leaves the function. *)
Example get_profs_missing_has_next_page_propagates :
  let body :=
    JObj [("data", JObj [("search", JObj [("teachers",
      JObj [("edges", JArr [Mock.edge_of (Mock.teacher "Ada")]);
            ("pageInfo", JObj [("endCursor", JStr "c1")])])])])] in
  let e := mkEnv Mock.open_school (Mock.sequence [Body body]) in
  fst (Profs.get_profs 1 e 42 1000 None)
    = Some (Raise (KeyError "hasNextPage")).
Proof. reflexivity. Qed.

(** A body that is not JSON, decoded by a [requests] whose
    [JSONDecodeError] derives from [RequestException]: the first handler
    takes it and evaluates [j["errors"]] while [j] is not bound. *)
Example get_profs_decode_error_in_first_handler :
  let e := mkEnv Mock.open_school (Mock.sequence [BadBody true]) in
  fst (Profs.get_profs 1 e 42 1000 None) = Some (Raise UnboundLocalError).
Proof. reflexivity. Qed.

(** ** The page size of the requests *)

Lemma posts_failed (results : list json) :
  posts (snd (Reviews.failed results)) = [].
Proof. reflexivity. Qed.

Lemma reviews_loop_counts (srv : service) (prof_id : string)
    (num_reviews : Z) (fuel : nat) :
  forall (n : nat) (cur : json) (results : list json),
    Forall (fun rq => count rq = Reviews.page_size num_reviews)
      (posts (snd (Reviews.get_prof_reviews_loop fuel srv prof_id
                     num_reviews n cur results))).
Proof.
  induction fuel as [|fuel IH]; intros n cur results; [constructor|].
  cbn [Reviews.get_prof_reviews_loop]. rewrite posts_emit_post.
  constructor; [reflexivity|].
  destruct (srv n _) as [|b|rj]; try (rewrite posts_failed; constructor).
  destruct (Py.bind (Reviews.ratings rj) _) as [nodes|ex];
    [|rewrite posts_failed; constructor].
  destruct (Reviews.add_nodes prof_id results nodes) as [res [ex|]];
    [rewrite posts_failed; constructor|].
  destruct (Py.bind (Reviews.ratings rj) _) as [[k c]|ex];
    [|rewrite posts_failed; constructor].
  destruct (truthy k); [apply IH | constructor].
Qed.

Lemma profs_loop_counts (srv : service) (sid : string) (page_size : Z)
    (pages : option Z) (fuel : nat) :
  forall (n : nat) (j : option json) (cur : json) (results : list json)
         (pages_so_far : Z),
    Forall (fun rq => count rq = page_size)
      (posts (snd (Profs.get_profs_loop fuel srv sid page_size pages n j cur
                     results pages_so_far))).
Proof.
  induction fuel as [|fuel IH]; intros n j cur results psf; [constructor|].
  cbn [Profs.get_profs_loop]. rewrite posts_emit_post.
  constructor; [reflexivity|].
  destruct (srv n _) as [|[|]|jv]; try constructor.
  destruct (Profs.envelope jv) as [[page_info ej]|ex];
    [|destruct ex; constructor].
  destruct (Py.bind (iter ej) _); [|constructor].
  destruct (Py.bind (getitem page_info "hasNextPage") _) as [[h c]|];
    [|constructor].
  destruct (Profs.cap_reached pages (psf + 1)); [constructor|].
  destruct (truthy h); [apply IH | constructor].
Qed.

(** C7 (amended).  Every request of the reviews paginator carries
    [count = min(1000, num_reviews)], which never exceeds the service
    maximum of 1000.  Every request of the professors paginator carries
    the [page_size] it was called with, unchanged; [all_profs] calls it
    with the default, so its requests carry 1000. *)
Theorem page_size_of_requests (fuel : nat) (srv : service)
    (prof_id : string) (num_reviews : Z) (e : env)
    (school_number page_size : Z) (pages : option Z) :
  Forall (fun rq => count rq = Z.min 1000 num_reviews /\
                    count rq <= Reviews.service_max)
    (posts (snd (Reviews.get_prof_reviews fuel srv prof_id num_reviews))) /\
  Forall (fun rq => count rq = page_size)
    (posts (snd (Profs.get_profs fuel e school_number page_size pages))) /\
  Forall (fun rq => count rq = 1000)
    (posts (snd (Profs.get_profs fuel e school_number
                   Profs.default_page_size None))).
Proof.
  assert (Hp : forall ps pg,
            Forall (fun rq => count rq = ps)
              (posts (snd (Profs.get_profs fuel e school_number ps pg)))).
  { intros ps pg. unfold Profs.get_profs.
    destruct (Profs.school_valid e school_number) as [[|]|ex];
      try constructor.
    apply profs_loop_counts. }
  split; [|split; [apply Hp | apply (Hp Profs.default_page_size None)]].
  eapply Forall_impl;
    [|apply (reviews_loop_counts srv prof_id num_reviews fuel)].
  intros rq ->. unfold Reviews.page_size, Reviews.service_max. lia.
Qed.

(** C7, as stated, fails on the professors paginator: called with a page
    size of 5000, it sends [count = 5000], above the maximum of 1000. *)
Lemma get_profs_does_not_clamp :
  let e := mkEnv Mock.open_school
             (Mock.sequence
                [Body (Mock.profs_page [Mock.teacher "Ada"] false "")]) in
  map count (posts (snd (Profs.get_profs 1 e 42 5000 None))) = [5000] /\
  Reviews.service_max < 5000.
Proof. split; reflexivity. Qed.

(** ** The dispatchers *)

Lemma for_each_ext {A B : Type} (f g : A -> py B) (l : list A) :
  (forall x, In x l -> f x = g x) -> for_each f l = for_each g l.
Proof.
  induction l as [|x l IH]; intros H; simpl; [reflexivity|].
  rewrite (H x) by now left. rewrite IH; [reflexivity|].
  intros y Hy. apply H. now right.
Qed.

Lemma for_each_return {A B : Type} (f : A -> B) (l : list A) :
  for_each (fun x => Return (f x)) l = Return (map f l).
Proof. induction l as [|x l IH]; simpl; [|rewrite IH]; reflexivity. Qed.

Lemma for_each_index {A B : Type} (g : A -> py B) (l pre : list A) :
  for_each (fun i => x <- index (pre ++ l) i ;; g x)
    (seq (List.length pre) (List.length l))
  = for_each g l.
Proof.
  revert pre. induction l as [|a l IH]; intros pre; simpl; [reflexivity|].
  unfold index at 1.
  rewrite nth_error_app2, Nat.sub_diag by lia. simpl.
  specialize (IH (pre ++ [a])).
  rewrite <- app_assoc, length_app, Nat.add_1_r in IH. simpl in IH.
  now rewrite IH.
Qed.

Section ReviewsDispatch.

Variable run : string -> Z -> py Reviews.result.

Lemma submit_all_units (units : list (string * Z)) :
  Dispatch.submit_all run (map fst units) (map snd units)
  = Return (map (Spec.outcome run) units).
Proof.
  unfold Dispatch.submit_all. rewrite length_map.
  rewrite <- for_each_return.
  rewrite <- (for_each_index (fun u => Return (Spec.outcome run u)) units []).
  apply for_each_ext. intros i _. unfold index.
  rewrite !nth_error_map. simpl.
  destruct (nth_error units i); reflexivity.
Qed.

Lemma collect_units (units : list (string * Z)) :
  forall (pre : list string) (st : Dispatch.collection),
    Dispatch.fold_py (Dispatch.collect (pre ++ map fst units))
      (combine (seq (List.length pre) (List.length units))
         (map (Spec.outcome run) units)) st
    = Return (Dispatch.mkCollection
                (Dispatch.data st ++ Spec.gathered run units)
                (Dispatch.errors st ++ map fst (Spec.failing run units))).
Proof.
  induction units as [|u units IH]; intros pre st; simpl.
  - rewrite !app_nil_r. now destruct st.
  - unfold Dispatch.collect at 1. cbn [fst snd]. unfold index.
    rewrite nth_error_app2, Nat.sub_diag by lia. cbn [nth_error Py.bind].
    specialize (IH (pre ++ [fst u])).
    rewrite <- app_assoc, length_app, Nat.add_1_r in IH. simpl in IH.
    unfold Spec.failing, Spec.gathered. simpl.
    fold (Spec.failing run units) (Spec.gathered run units).
    destruct (Spec.outcome run u) as [res|ex]; simpl.
    + destruct (Reviews.error res); simpl; rewrite IH; simpl;
        now rewrite <- ?app_assoc.
    + rewrite IH. simpl. now rewrite <- app_assoc.
Qed.

Lemma get_all_prof_reviews_units (units : list (string * Z)) :
  Dispatch.get_all_prof_reviews run (map fst units) (map snd units)
  = Return (Dispatch.mkCollection (Spec.gathered run units)
              (map fst (Spec.failing run units))).
Proof.
  unfold Dispatch.get_all_prof_reviews. rewrite submit_all_units.
  cbn [Py.bind]. unfold Dispatch.enumerate. rewrite length_map.
  apply (collect_units units [] (Dispatch.mkCollection [] [])).
Qed.

End ReviewsDispatch.

Lemma all_profs_gathers (run : Z -> py (list json)) (l : list Z)
    (acc : list json) :
  fold_left Dispatch.gather (map run l) acc
  = acc ++ flat_map (fun i => Spec.unit_data (fun d => d) (run i)) l.
Proof.
  revert acc. induction l as [|i l IH]; intros acc; simpl.
  - now rewrite app_nil_r.
  - rewrite IH. destruct (run i); simpl; now rewrite <- ?app_assoc.
Qed.

(** C1 (amended).  For the reviews dispatcher, whatever the outcomes of
    the futures and wherever the failing ones stand: the call returns; its
    [errors] are the ids of the failing units, in order, one per failing
    unit, all taken from the input ids; its [data] is the concatenation of
    what the units returned, so it contains the data of every unit that
    succeeded.  A unit fails when its result carries the error flag or when
    [future.result] raises (a timeout included).  The professors
    dispatcher gathers the concatenation of what the units returned and
    nothing else: it keeps no failed ids.  That list is what it returns,
    with any table library: without [save] always, with [save] unless
    the library raises while the table is saved. *)
Theorem partial_failure_containment
    (run : string -> Z -> py Reviews.result) (units : list (string * Z))
    (L : Tables.library) (run_profs : Z -> py (list json))
    (start stop : Z) (save : bool) :
  (exists c,
     Dispatch.get_all_prof_reviews run (map fst units) (map snd units)
       = Return c /\
     Dispatch.errors c = map fst (Spec.failing run units) /\
     List.length (Dispatch.errors c)
       = List.length (Spec.failing run units) /\
     incl (Dispatch.errors c) (map fst units) /\
     (forall pid, In pid (Dispatch.errors c) <->
        exists u, In u units /\ fst u = pid /\
                  Spec.unit_failed Reviews.error (Spec.outcome run u) = true)
     /\
     Dispatch.data c = Spec.gathered run units /\
     (forall u r, In u units -> Spec.outcome run u = Return r ->
                  incl (Reviews.data r) (Dispatch.data c))) /\
  (let gathered :=
     flat_map (fun i => Spec.unit_data (fun d => d) (run_profs i))
       (range start stop) in
   Dispatch.all_profs L run_profs start stop save
   = (if save
      then t <- Tables.save L gathered ;; Return (gathered, Some t)
      else Return (gathered, None)) /\
   (forall result written,
      Dispatch.all_profs L run_profs start stop save
        = Return (result, written) ->
      result = gathered)).
Proof.
  split.
  - eexists. split; [apply get_all_prof_reviews_units|]. cbn.
    assert (Hin : forall pid, In pid (map fst (Spec.failing run units)) <->
              exists u, In u units /\ fst u = pid /\
                Spec.unit_failed Reviews.error (Spec.outcome run u) = true).
    { intros pid. rewrite in_map_iff. unfold Spec.failing. split.
      - intros (u & <- & Hu). apply filter_In in Hu as [Hu Hf]. now exists u.
      - intros (u & Hu & <- & Hf). exists u. split; [reflexivity|].
        apply filter_In. now split. }
    repeat split.
    + now rewrite length_map.
    + intros pid Hp. apply Hin in Hp as (u & Hu & <- & _). now apply in_map.
    + apply Hin.
    + apply Hin.
    + intros u r Hu Hr x Hx. unfold Spec.gathered. apply in_flat_map.
      exists u. split; [exact Hu|]. now rewrite Hr.
  - cbn zeta. unfold Dispatch.all_profs.
    rewrite all_profs_gathers. cbn [app]. split; [reflexivity|].
    intros result written H. destruct save.
    + destruct (Tables.save L _); [|discriminate H].
      now injection H as <- _.
    + now injection H as <- _.
Qed.

(** The scenario of five units of which the third times out. *)
Example third_unit_times_out :
  let deadline := fun pid => if String.eqb pid "p3" then 0%nat else 1%nat in
  Dispatch.get_all_prof_reviews
    (Dispatch.reviews_unit Mock.one_review_each deadline)
    ["p1"; "p2"; "p3"; "p4"; "p5"] [1; 1; 1; 1; 1]
  = Return (Dispatch.mkCollection
              [JObj [("comment", JStr "p1"); ("profId", JStr "p1")];
               JObj [("comment", JStr "p2"); ("profId", JStr "p2")];
               JObj [("comment", JStr "p4"); ("profId", JStr "p4")];
               JObj [("comment", JStr "p5"); ("profId", JStr "p5")]]
              ["p3"]).
Proof. reflexivity. Qed.

(** [prof_num_reviews] shorter than [prof_ids]: the submit loop raises. *)
Example short_counts_raise :
  Dispatch.get_all_prof_reviews
    (Dispatch.reviews_unit Mock.one_review_each (fun _ => 1%nat))
    ["p1"; "p2"] [1]
  = Raise IndexError.
Proof. reflexivity. Qed.

(** C1, as stated, fails on the professors dispatcher.  School 7 cannot be
    reached in the first world and does not exist in the second: the unit
    fails in the first and succeeds in the second, and [all_profs] returns
    the same in both, so what it returns does not tell the failed ids. *)
Lemma all_profs_keeps_no_failed_ids :
  let down := Dispatch.profs_unit
                (mkEnv Mock.unreachable (Mock.sequence [])) (fun _ => 1%nat) in
  let absent := Dispatch.profs_unit
                  (mkEnv Mock.unknown_school (Mock.sequence []))
                  (fun _ => 1%nat) in
  (forall (L : Tables.library) (save : bool),
     Dispatch.all_profs L down 7 8 save
     = Dispatch.all_profs L absent 7 8 save) /\
  filter (fun i => is_raise (down i)) (range 7 8) = [7] /\
  filter (fun i => is_raise (absent i)) (range 7 8) = [].
Proof. split; [intros L save; reflexivity | split; reflexivity]. Qed.

(** ** Batches *)

Lemma slice_window {A : Type} (l : list A) (s b : Z) :
  0 <= s -> 0 <= b ->
  slice l s (s + b) = firstn (Z.to_nat b) (skipn (Z.to_nat s) l).
Proof.
  intros Hs Hb. unfold slice, clip.
  destruct (Z.ltb_spec s 0) as [|_]; [lia|].
  destruct (Z.ltb_spec (s + b) 0) as [|_]; [lia|].
  set (len := Z.of_nat (List.length l)).
  destruct (Z_lt_le_dec s len) as [Hlt|Hge].
  - rewrite (Z.min_l s len) by lia.
    destruct (Z_le_gt_dec (s + b) len) as [Hle|Hgt].
    + rewrite Z.min_l by lia. f_equal. lia.
    + rewrite Z.min_r by lia.
      rewrite !firstn_all2; [reflexivity| |]; rewrite length_skipn; lia.
  - rewrite (Z.min_r s len) by lia.
    rewrite !(skipn_all2 l) by lia. now rewrite !firstn_nil.
Qed.

Lemma slice_map {A B : Type} (f : A -> B) (l : list A) (s e : Z) :
  slice (map f l) s e = map f (slice l s e).
Proof.
  unfold slice. now rewrite length_map, skipn_map, firstn_map.
Qed.

Lemma failing_app (run : string -> Z -> py Reviews.result)
    (l1 l2 : list (string * Z)) :
  map fst (Spec.failing run (l1 ++ l2))
  = map fst (Spec.failing run l1) ++ map fst (Spec.failing run l2).
Proof. unfold Spec.failing. now rewrite filter_app, map_app. Qed.

Lemma gathered_app (run : string -> Z -> py Reviews.result)
    (l1 l2 : list (string * Z)) :
  Spec.gathered run (l1 ++ l2)
  = Spec.gathered run l1 ++ Spec.gathered run l2.
Proof. unfold Spec.gathered. now rewrite flat_map_app. Qed.

Section Batches.

Variable L : Tables.library.
Variable run : string -> Z -> py Reviews.result.
Variable units : list (string * Z).
Variable batch_size : Z.
Hypothesis batch_size_pos : 0 < batch_size.

Lemma batch_loop (fuel : nat) :
  forall (count : Z) (errors : list string) (total_data : list json),
    0 <= count ->
    (List.length (Spec.remaining units batch_size count) < fuel)%nat ->
    Batch.all_prof_reviews_loop run fuel (map fst units) (map snd units)
      batch_size count errors total_data
    = Some (Return
              (total_data
                 ++ Spec.gathered run (Spec.remaining units batch_size count),
               errors
                 ++ map fst (Spec.failing run
                               (Spec.remaining units batch_size count)))).
Proof.
  induction fuel as [|fuel IH]; intros count errors total Hc Hfuel; [lia|].
  cbn [Batch.all_prof_reviews_loop].
  destruct (Z.eqb_spec batch_size 0) as [|_]; [lia|].
  replace ((count + 1) * batch_size) with (count * batch_size + batch_size)
    by lia.
  rewrite !slice_map, get_all_prof_reviews_units. cbn.
  rewrite slice_window by nia. fold (Spec.remaining units batch_size count).
  rewrite length_map.
  assert (Hsplit : Spec.remaining units batch_size count
            = firstn (Z.to_nat batch_size)
                (Spec.remaining units batch_size count)
                ++ Spec.remaining units batch_size (count + 1)).
  { unfold Spec.remaining.
    replace (Z.to_nat ((count + 1) * batch_size))
      with (Z.to_nat batch_size + Z.to_nat (count * batch_size))%nat by nia.
    now rewrite <- skipn_skipn, firstn_skipn. }
  destruct (Z.ltb_spec (count * batch_size) (Z.of_nat (List.length units)))
    as [Hlt|Hge].
  - rewrite IH; [| lia |].
    + rewrite <- !app_assoc, <- gathered_app, <- failing_app, <- Hsplit.
      reflexivity.
    + unfold Spec.remaining in *. rewrite length_skipn in *. nia.
  - assert (Hnil : Spec.remaining units batch_size count = [])
      by (unfold Spec.remaining; apply skipn_all2; nia).
    rewrite Hnil. simpl. now rewrite firstn_nil.
Qed.

Lemma batches_run (fuel : nat) :
  (List.length units < fuel)%nat ->
  Batch.all_prof_reviews L run fuel (map fst units) (map snd units)
    batch_size
  = Some (t <- Tables.save L (Spec.gathered run units) ;;
          Return (t, map fst (Spec.failing run units))).
Proof.
  intros Hfuel. unfold Batch.all_prof_reviews.
  rewrite batch_loop;
    [reflexivity | lia | unfold Spec.remaining; simpl; exact Hfuel].
Qed.

End Batches.

Lemma save_bind {A : Type} (L : Tables.library) (records : list json)
    (k : Tables.table L -> py A) :
  (t <- Tables.save L records ;; k t)
  = (df <- Tables.DataFrame L records ;;
     df <- Tables.unique L df ;;
     _ <- Tables.write_csv L df ;;
     k df).
Proof.
  unfold Tables.save.
  destruct (Tables.DataFrame L records) as [df|]; [|reflexivity].
  cbn [Py.bind].
  destruct (Tables.unique L df) as [df'|]; [|reflexivity]. cbn [Py.bind].
  destruct (Tables.write_csv L df'); reflexivity.
Qed.

(** C4.  For a work list of [M] units and a batch size [B], a positive
    number below [M], each unit having the same outcome in both runs, and
    any table library: the batch loop ends, and what it writes and
    returns is what a single batch of size [M] gives.  The table written
    is [unique] applied once, at the end, to the table of all the data
    the dispatcher returns for the whole list; the errors are the
    dispatcher's errors. *)
Theorem batch_equivalence (L : Tables.library)
    (run : string -> Z -> py Reviews.result)
    (units : list (string * Z)) (batch_size : Z) (fuel : nat) :
  let M := Z.of_nat (List.length units) in
  let ids := map fst units in
  let nums := map snd units in
  0 < batch_size ->
  batch_size < M ->
  (List.length units < fuel)%nat ->
  exists c,
    Dispatch.get_all_prof_reviews run ids nums = Return c /\
    Batch.all_prof_reviews L run fuel ids nums batch_size
    = Some (df <- Tables.DataFrame L (Dispatch.data c) ;;
            df <- Tables.unique L df ;;
            _ <- Tables.write_csv L df ;;
            Return (df, Dispatch.errors c)) /\
    Batch.all_prof_reviews L run fuel ids nums batch_size
    = Batch.all_prof_reviews L run fuel ids nums M.
Proof.
  intros M ids nums Hpos Hlt Hfuel.
  eexists. split; [apply get_all_prof_reviews_units|].
  cbn [Dispatch.data Dispatch.errors].
  subst ids nums. rewrite !batches_run by (try assumption; lia).
  rewrite save_bind. split; reflexivity.
Qed.

Lemma batch_equivalence_witness :
  let run := Dispatch.reviews_unit Mock.one_review_each (fun _ => 1%nat) in
  let units := [("p1", 1); ("p2", 1); ("p1", 1); ("p3", 1); ("p2", 1)] in
  0 < 2 /\ 2 < 5 /\ (5 < 6)%nat /\
  Batch.all_prof_reviews Mock.tables run 6 (map fst units) (map snd units) 2
  = Batch.all_prof_reviews Mock.tables run 6 (map fst units) (map snd units)
      5 /\
  Batch.all_prof_reviews Mock.tables run 6 (map fst units) (map snd units) 2
  = Some (Return
            ([JObj [("comment", JStr "p1"); ("profId", JStr "p1")];
              JObj [("comment", JStr "p2"); ("profId", JStr "p2")];
              JObj [("comment", JStr "p3"); ("profId", JStr "p3")]],
             [])).
Proof.
  intros run units.
  split; [lia|]. split; [lia|]. split; [lia|]. split; [|reflexivity].
  destruct (batch_equivalence Mock.tables run units 2 6) as (c & _ & _ & H);
    [lia | simpl; lia | simpl; lia | exact H].
Defined.

(** The save step is the last thing [all_profs] and [all_prof_reviews]
    do: when the table library raises there, the call raises and returns
    nothing, although every request has been made; without [save],
    [all_profs] does not touch the library. *)
Example save_can_raise :
  let profs := Dispatch.profs_unit
                 (mkEnv Mock.open_school
                    (Mock.sequence
                       [Body (Mock.profs_page [Mock.teacher "Ada"] false
                                "")]))
                 (fun _ => 1%nat) in
  let reviews := Dispatch.reviews_unit Mock.one_review_each
                   (fun _ => 1%nat) in
  Dispatch.all_profs Mock.read_only_tables profs 7 8 true
    = Raise (OtherError "ComputeError") /\
  Dispatch.all_profs Mock.read_only_tables profs 7 8 false
    = Return ([Mock.teacher_flat "Ada"], None) /\
  Batch.all_prof_reviews Mock.read_only_tables reviews 3 ["p1"] [1] 10
    = Some (Raise (OtherError "ComputeError")).
Proof. repeat split. Qed.

(** A batch size of zero is no batch size: the progress line divides by
    it. *)
Example zero_batch_size_raises :
  Batch.all_prof_reviews Mock.tables
    (Dispatch.reviews_unit Mock.one_review_each (fun _ => 1%nat)) 3
    ["p1"; "p2"] [1; 1] 0
  = Some (Raise ZeroDivisionError).
Proof. reflexivity. Qed.

(* ================================================================== *)
(** * Part III: further properties of the code *)
(* ================================================================== *)

(** ** School ids *)

Lemma upto_In (n : nat) (x : N) : (x < N.of_nat n)%N -> In x (Wire.upto n).
Proof.
  intros H. unfold Wire.upto. apply in_map_iff. exists (N.to_nat x).
  split; [apply N2Nat.id|]. apply in_seq. lia.
Qed.

Lemma sextets_ok (i : N) : (i < 64)%N -> Wire.sextet_ok i = true.
Proof.
  intros H.
  assert (A : forallb Wire.sextet_ok (Wire.upto 64) = true)
    by (vm_compute; reflexivity).
  rewrite forallb_forall in A. apply A. now apply upto_In.
Qed.

Lemma pairs_ok (a b : N) :
  (a < 256)%N -> (b < 256)%N -> Wire.pair_ok a b = true.
Proof.
  intros Ha Hb.
  assert (A : forallb (fun a => forallb (Wire.pair_ok a) (Wire.upto 256))
                (Wire.upto 256) = true) by (vm_compute; reflexivity).
  rewrite forallb_forall in A. specialize (A a (upto_In 256 a Ha)).
  rewrite forallb_forall in A. apply A. now apply upto_In.
Qed.

Lemma index_char (i : N) :
  (i <? 64)%N = true -> Wire.b64_index (b64_char i) = i.
Proof.
  intros H. apply N.ltb_lt in H. pose proof (sextets_ok i H) as S.
  unfold Wire.sextet_ok in S. apply andb_true_iff in S as [S _].
  now apply N.eqb_eq.
Qed.

Lemma char_not_pad (i : N) :
  (i <? 64)%N = true -> Ascii.eqb (b64_char i) "=" = false.
Proof.
  intros H. apply N.ltb_lt in H. pose proof (sextets_ok i H) as S.
  unfold Wire.sextet_ok in S. apply andb_true_iff in S as [_ S].
  now apply negb_true_iff.
Qed.

Ltac split_ok H :=
  repeat match type of H with
         | (_ && _)%bool = true =>
             let H1 := fresh "K" in
             apply andb_true_iff in H; destruct H as [H H1]
         end.

Lemma ungroups_groups (n : nat) :
  forall l : list N,
    (List.length l <= n)%nat ->
    Forall (fun x => (x < 256)%N) l ->
    Wire.b64_ungroups (b64_groups l) = l.
Proof.
  induction n as [|n IH]; intros l Hn Hl.
  - destruct l; [reflexivity | simpl in Hn; lia].
  - destruct l as [|a [|b [|c rest]]]; [reflexivity | | |].
    + inversion Hl as [|? ? Ha _]; subst.
      pose proof (pairs_ok a a Ha Ha) as P. unfold Wire.pair_ok in P.
      split_ok P. cbn [b64_groups Wire.b64_ungroups].
      rewrite Ascii.eqb_refl.
      rewrite !index_char by assumption.
      apply N.eqb_eq in K6, K1. rewrite K6. now rewrite K1.
    + inversion Hl as [|? ? Ha Hl']; subst.
      inversion Hl' as [|? ? Hb _]; subst.
      pose proof (pairs_ok a b Ha Hb) as P. unfold Wire.pair_ok in P.
      pose proof (pairs_ok b b Hb Hb) as Q. unfold Wire.pair_ok in Q.
      split_ok P. split_ok Q. cbn [b64_groups Wire.b64_ungroups].
      rewrite (char_not_pad ((b mod 16) * 4)) by assumption.
      rewrite Ascii.eqb_refl.
      rewrite !index_char by assumption.
      repeat match goal with H : (_ =? _)%N = true |- _ =>
               apply N.eqb_eq in H end.
      congruence.
    + inversion Hl as [|? ? Ha Hl']; subst.
      inversion Hl' as [|? ? Hb Hl'']; subst.
      inversion Hl'' as [|? ? Hc Hrest]; subst.
      pose proof (pairs_ok a b Ha Hb) as P. unfold Wire.pair_ok in P.
      pose proof (pairs_ok b c Hb Hc) as Q. unfold Wire.pair_ok in Q.
      pose proof (pairs_ok c c Hc Hc) as R. unfold Wire.pair_ok in R.
      split_ok P. split_ok Q. split_ok R.
      cbn [b64_groups Wire.b64_ungroups].
      rewrite (char_not_pad ((b mod 16) * 4 + c / 64)) by assumption.
      rewrite (char_not_pad (c mod 64)) by assumption.
      rewrite !index_char by assumption.
      rewrite IH; [| simpl in Hn; lia | assumption].
      repeat match goal with H : (_ =? _)%N = true |- _ =>
               apply N.eqb_eq in H end.
      congruence.
Qed.

Lemma b64decode_b64encode (s : string) :
  Wire.b64decode (b64encode s) = s.
Proof.
  unfold Wire.b64decode, b64encode.
  rewrite (ungroups_groups _ _ (Nat.le_refl _)).
  - rewrite map_map. erewrite map_ext; [|apply ascii_N_embedding].
    rewrite map_id. apply string_of_list_ascii_of_string.
  - apply Forall_forall. intros x Hx. apply in_map_iff in Hx as (c & <- & _).
    apply N_ascii_bounded.
Qed.

Lemma strip_prefix_app (p s : string) :
  Wire.strip_prefix p (p ++ s) = Some s.
Proof.
  induction p as [|a p IH]; simpl; [now destruct s|].
  now rewrite Ascii.eqb_refl.
Qed.

Lemma int_of_str_of_int (n : Z) :
  NilZero.int_of_string (str_of_int n) = Some (Z.to_int n).
Proof.
  unfold str_of_int. apply NilZero.isi; destruct n; simpl; try discriminate;
    intros H; injection H as H;
    now apply DecimalPos.Unsigned.to_uint_nonnil in H.
Qed.

(** X1.  A school id can be read back: decoding the base64 text, taking
    off the prefix ["School-"] and reading the decimal number gives the
    school number the id was made from.  So two school numbers with the
    same id are equal. *)
Theorem school_id_round_trip (school_number : Z) :
  Wire.school_number_of (Profs.school_id school_number)
    = Some school_number /\
  (forall other, Profs.school_id school_number = Profs.school_id other ->
                 school_number = other).
Proof.
  assert (H : forall n,
            Wire.school_number_of (Profs.school_id n) = Some n).
  { intros n. unfold Wire.school_number_of, Profs.school_id.
    rewrite b64decode_b64encode, strip_prefix_app, int_of_str_of_int.
    simpl. now rewrite DecimalZ.of_to. }
  split; [apply H|].
  intros other E. pose proof (H school_number) as H1.
  rewrite E, H in H1. now injection H1.
Qed.

(** The professor id of the docstring of [get_prof_reviews]. *)
Example docstring_prof_id :
  b64encode "Teacher-307320" = "VGVhY2hlci0zMDczMjA=".
Proof. reflexivity. Qed.

(** ** Chained requests, cool-down, page cap *)

Section ReviewsTrace.

Variables (srv : service) (prof_id : string) (num_reviews : Z).

Lemma reviews_loop_threaded (fuel : nat) :
  forall (n : nat) (cur : json) (results : list json),
    Trace.threaded srv Spec.reviews_page_info n cur
      (posts (snd (Reviews.get_prof_reviews_loop fuel srv prof_id
                     num_reviews n cur results))).
Proof.
  induction fuel as [|fuel IH]; intros n cur results; [exact I|].
  cbn [Reviews.get_prof_reviews_loop]. rewrite posts_emit_post.
  cbn [Trace.threaded]. split; [reflexivity|].
  destruct (srv n _) as [|b|rj] eqn:Hs; try exact I.
  destruct (Py.bind (Reviews.ratings rj) _) as [nodes|ex]; [|exact I].
  destruct (Reviews.add_nodes prof_id results nodes) as [res [ex|]];
    [exact I|].
  destruct (Py.bind (Reviews.ratings rj) _) as [[k c]|ex] eqn:Hi;
    [|exact I].
  destruct (truthy k) eqn:Hk; [|exact I].
  destruct (posts _) eqn:E; [exact I|]. rewrite <- E.
  exists rj, k, c. repeat split; auto.
Qed.

Lemma reviews_loop_fields (fuel : nat) :
  forall (n : nat) (cur : json) (results : list json),
    Forall (fun rq => query rq = ProfReviews /\ ref rq = prof_id)
      (posts (snd (Reviews.get_prof_reviews_loop fuel srv prof_id
                     num_reviews n cur results))).
Proof.
  induction fuel as [|fuel IH]; intros n cur results; [constructor|].
  cbn [Reviews.get_prof_reviews_loop]. rewrite posts_emit_post.
  constructor; [split; reflexivity|].
  destruct (srv n _) as [|b|rj]; try constructor.
  destruct (Py.bind (Reviews.ratings rj) _) as [nodes|ex]; [|constructor].
  destruct (Reviews.add_nodes prof_id results nodes) as [res [ex|]];
    [constructor|].
  destruct (Py.bind (Reviews.ratings rj) _) as [[k c]|ex]; [|constructor].
  destruct (truthy k); [apply IH | constructor].
Qed.

Lemma reviews_loop_sleeps (fuel : nat) :
  forall (n : nat) (cur : json) (results : list json),
    let r := Reviews.get_prof_reviews_loop fuel srv prof_id num_reviews n
               cur results in
    match fst r with
    | Some res =>
        if Reviews.error res
        then exists t, snd r = t ++ [Sleep 20] /\
                       Forall (fun ev => is_post ev = true) t
        else Forall (fun ev => is_post ev = true) (snd r)
    | None => Forall (fun ev => is_post ev = true) (snd r)
    end.
Proof.
  induction fuel as [|fuel IH]; intros n cur results; [constructor|].
  cbn zeta. cbn [Reviews.get_prof_reviews_loop].
  set (rq := mkRequest ProfReviews (Reviews.page_size num_reviews) cur
               prof_id).
  assert (Hfail : forall l,
            let r := emit (Post rq) (Reviews.failed l) in
            match fst r with
            | Some res =>
                if Reviews.error res
                then exists t, snd r = t ++ [Sleep 20] /\
                               Forall (fun ev => is_post ev = true) t
                else Forall (fun ev => is_post ev = true) (snd r)
            | None => Forall (fun ev => is_post ev = true) (snd r)
            end).
  { intros l. simpl. exists [Post rq]. split; [reflexivity|].
    repeat constructor. }
  destruct (srv n rq) as [|b|rj]; try apply Hfail.
  destruct (Py.bind (Reviews.ratings rj) _) as [nodes|ex]; [|apply Hfail].
  destruct (Reviews.add_nodes prof_id results nodes) as [res [ex|]];
    [apply Hfail|].
  destruct (Py.bind (Reviews.ratings rj) _) as [[k c]|ex]; [|apply Hfail].
  destruct (truthy k).
  - specialize (IH (S n) c res). cbn zeta in IH.
    destruct (Reviews.get_prof_reviews_loop fuel srv prof_id num_reviews
                (S n) c res) as [o t]. cbn [emit fst snd] in *.
    destruct o as [r|].
    + destruct (Reviews.error r).
      * destruct IH as (t' & -> & Ht'). exists (Post rq :: t').
        split; [reflexivity|]. constructor; [reflexivity|exact Ht'].
      * constructor; [reflexivity|exact IH].
    + constructor; [reflexivity|exact IH].
  - simpl. repeat constructor.
Qed.

End ReviewsTrace.

Section ProfsTrace.

Variables (srv : service) (sid : string) (page_size : Z).

Lemma profs_loop_threaded (pages : option Z) (fuel : nat) :
  forall (n : nat) (j : option json) (cur : json) (results : list json)
         (pages_so_far : Z),
    Trace.threaded srv Trace.profs_page_info n cur
      (posts (snd (Profs.get_profs_loop fuel srv sid page_size pages n j
                     cur results pages_so_far))).
Proof.
  induction fuel as [|fuel IH]; intros n j cur results psf; [exact I|].
  cbn [Profs.get_profs_loop]. rewrite posts_emit_post.
  cbn [Trace.threaded]. split; [reflexivity|].
  destruct (srv n _) as [|[|]|jv] eqn:Hs; try exact I.
  destruct (Profs.envelope jv) as [[page_info ej]|ex] eqn:He;
    [|destruct ex; exact I].
  destruct (Py.bind (iter ej) _); [|exact I].
  destruct (Py.bind (getitem page_info "hasNextPage") _) as [[h c]|] eqn:Hi;
    [|exact I].
  destruct (Profs.cap_reached pages (psf + 1)); [exact I|].
  destruct (truthy h) eqn:Hh; [|exact I].
  destruct (posts _) eqn:E; [exact I|]. rewrite <- E.
  exists jv, h, c. repeat split; auto.
  unfold Trace.profs_page_info. rewrite He. exact Hi.
Qed.

Lemma profs_loop_fields (pages : option Z) (fuel : nat) :
  forall (n : nat) (j : option json) (cur : json) (results : list json)
         (pages_so_far : Z),
    Forall (fun rq => query rq = ProfsAtSchool /\ ref rq = sid)
      (posts (snd (Profs.get_profs_loop fuel srv sid page_size pages n j
                     cur results pages_so_far))).
Proof.
  induction fuel as [|fuel IH]; intros n j cur results psf; [constructor|].
  cbn [Profs.get_profs_loop]. rewrite posts_emit_post.
  constructor; [split; reflexivity|].
  destruct (srv n _) as [|[|]|jv]; try constructor.
  destruct (Profs.envelope jv) as [[page_info ej]|ex];
    [|destruct ex; constructor].
  destruct (Py.bind (iter ej) _); [|constructor].
  destruct (Py.bind (getitem page_info "hasNextPage") _) as [[h c]|];
    [|constructor].
  destruct (Profs.cap_reached pages (psf + 1)); [constructor|].
  destruct (truthy h); [apply IH | constructor].
Qed.

(** With a cap of [p] pages and [pages_so_far] pages behind it, the loop
    needs no more than [max(1, p - pages_so_far)] turns. *)
Lemma profs_loop_cap (p : Z) (fuel : nat) :
  forall (n : nat) (j : option json) (cur : json) (results : list json)
         (pages_so_far : Z),
    let r := Profs.get_profs_loop fuel srv sid page_size (Some p) n j cur
               results pages_so_far in
    (List.length (posts (snd r)) <= Trace.page_budget (p - pages_so_far))%nat
    /\
    ((Trace.page_budget (p - pages_so_far) <= fuel)%nat ->
     exists out, fst r = Some out).
Proof.
  unfold Trace.page_budget.
  induction fuel as [|fuel IH]; intros n j cur results psf; cbn zeta.
  - split; [simpl; lia | lia].
  - cbn [Profs.get_profs_loop]. rewrite posts_emit_post, fst_emit.
    cbn [List.length].
    assert (Hone : forall o : py (list json),
              (S (List.length (posts (snd (done o))))
               <= Z.to_nat (Z.max 1 (p - psf)))%nat /\
              ((Z.to_nat (Z.max 1 (p - psf)) <= S fuel)%nat ->
               exists out, fst (done o) = Some out)).
    { intros o. split; [simpl; lia | intros _; now exists o]. }
    destruct (srv n _) as [|[|]|jv]; try apply Hone.
    destruct (Profs.envelope jv) as [[page_info ej]|ex];
      [|destruct ex; apply Hone].
    destruct (Py.bind (iter ej) _) as [l|]; [|apply Hone].
    destruct (Py.bind (getitem page_info "hasNextPage") _) as [[h c]|];
      [|apply Hone].
    unfold Profs.cap_reached.
    destruct (Z.leb_spec p (psf + 1)) as [Hle|Hgt]; [apply Hone|].
    destruct (truthy h); [|apply Hone].
    destruct (IH (S n) (Some jv) c l (psf + 1)) as [Hlen Hsome].
    split; [lia|]. intros Hf. apply Hsome. lia.
Qed.

End ProfsTrace.

(** ** Runs that raise, fields that stay, lists that do not match *)

Section ProfsFailure.

Variables (srv : service) (sid : string) (page_size : Z).

Lemma profs_loop_prefix (ps : list Spec.page) :
  forall (fuel n : nat) (j : option json) (cur : json)
         (results recs : list json) (pages_so_far : Z),
    Forall (fun p => truthy (Spec.has_next p) = true) ps ->
    Spec.serves Spec.profs_body srv n ps ->
    for_each Spec.promote (filter Spec.kept (flat_map Spec.edges ps))
      = Return recs ->
    exists t j' cur',
      Forall (fun ev => is_post ev = true) t /\
      List.length t = List.length ps /\
      Profs.get_profs_loop (List.length ps + fuel) srv sid page_size None n
        j cur results pages_so_far
      = (fst (Profs.get_profs_loop fuel srv sid page_size None
                (n + List.length ps) j' cur' (results ++ recs)
                (pages_so_far + Z.of_nat (List.length ps))),
         t ++ snd (Profs.get_profs_loop fuel srv sid page_size None
                     (n + List.length ps) j' cur' (results ++ recs)
                     (pages_so_far + Z.of_nat (List.length ps)))).
Proof.
  induction ps as [|p ps IH];
    intros fuel n j cur results recs psf Hall Hsrv Hrecs.
  - simpl in Hrecs. injection Hrecs as <-. exists [], j, cur.
    rewrite app_nil_r, Nat.add_0_r, Z.add_0_r. simpl.
    repeat split; [constructor|].
    now destruct (Profs.get_profs_loop _ _ _ _ _ _ _ _ _ _).
  - inversion Hall as [|? ? Ht Hall']; subst. destruct Hsrv as [Hp Hsrv].
    simpl flat_map in Hrecs. rewrite filter_app in Hrecs.
    apply for_each_app in Hrecs as (r1 & r2 & Hr1 & Hr2 & ->).
    cbn [List.length Nat.add Profs.get_profs_loop].
    destruct (Hp (mkRequest ProfsAtSchool page_size cur sid))
      as (jv & -> & page_info & ej & -> & Hi & Hh & Hc).
    cbn [Py.bind]. rewrite Hi. cbn [Py.bind].
    rewrite add_edges_spec, Hr1. cbn [Py.bind].
    rewrite Hh, Hc. cbn [Py.bind Profs.cap_reached]. rewrite Ht.
    destruct (IH fuel (S n) (Some jv) (Spec.end_cursor p) (results ++ r1)
                r2 (psf + 1) Hall' Hsrv Hr2)
      as (t & j' & cur' & Hposts & Hlen & ->).
    exists (Post (mkRequest ProfsAtSchool page_size cur sid) :: t), j', cur'.
    rewrite Nat.add_succ_r, <- app_assoc.
    replace (psf + Z.of_nat (S (List.length ps)))
      with (psf + 1 + Z.of_nat (List.length ps)) by lia.
    simpl. repeat split; [constructor; auto | now rewrite Hlen].
Qed.

Lemma add_edges_stops (results pre post rs : list json) (bad : json)
    (ex : exn) :
  Profs.add_edges results pre = Return rs ->
  Profs.add_edge rs bad = Raise ex ->
  Profs.add_edges results (pre ++ bad :: post) = Raise ex.
Proof.
  revert results. induction pre as [|e pre IH]; simpl; intros results H Hbad.
  - injection H as <-. now rewrite Hbad.
  - destruct (Profs.add_edge results e); [|discriminate H]. simpl in *.
    now apply IH.
Qed.

End ProfsFailure.

(** ** Reshaping keeps the other fields *)

Lemma getitem_obj (m : list (string * json)) (k : string) :
  getitem (JObj m) k
  = match Dict.get k m with
    | Some v => Return v
    | None => Raise (KeyError k)
    end.
Proof. reflexivity. Qed.

Lemma reshape_other_fields (prof_id : string) (edge node r : json) :
  getitem edge "node" = Return node ->
  Reviews.reshape prof_id edge = Return r ->
  forall k, k <> "profId" -> k <> "thumbs" -> k <> "teacherNote" ->
            getitem r k = getitem node k.
Proof.
  unfold Reviews.reshape. intros Hn H k H1 H2 H3. rewrite Hn in H.
  cbn [Py.bind] in H. destruct node as [| | | | |m]; try discriminate H.
  cbn [setitem Py.bind delitem] in H.
  destruct (Dict.has "thumbs" _); [|discriminate]. cbn [Py.bind] in H.
  destruct (Dict.has "teacherNote" _) eqn:Hn'.
  - cbn [delitem] in H. rewrite Hn' in H. injection H as <-.
    rewrite !getitem_obj, !get_del_other, get_set_other by congruence.
    reflexivity.
  - injection H as <-.
    rewrite !getitem_obj, !get_del_other, get_set_other by congruence.
    reflexivity.
Qed.

Lemma promote_other_fields (edge node r : json) :
  getitem edge "node" = Return node ->
  Spec.promote edge = Return r ->
  forall k, k <> "schoolId" -> k <> "schoolName" -> k <> "school" ->
            getitem r k = getitem node k.
Proof.
  unfold Spec.promote. intros Hn H k H1 H2 H3. rewrite Hn in H.
  cbn [Py.bind] in H.
  destruct (getitem node "__typename"); [|discriminate H].
  cbn [Py.bind] in H.
  destruct node as [| | | | |m]; try discriminate H.
  destruct (getitem (JObj m) "school") as [school|]; [|discriminate H].
  cbn [Py.bind] in H.
  destruct (getitem school "id") as [sid|]; [|discriminate H].
  cbn [Py.bind setitem] in H.
  destruct (getitem (JObj _) "school") as [school'|]; [|discriminate H].
  cbn [Py.bind] in H.
  destruct (getitem school' "name") as [sname|]; [|discriminate H].
  cbn [Py.bind setitem delitem] in H.
  destruct (Dict.has "school" _); [|discriminate H]. injection H as <-.
  rewrite !getitem_obj, get_del_other, !get_set_other by congruence.
  reflexivity.
Qed.

(** ** Lists of different lengths *)

Lemma for_each_stops {A B : Type} (f : A -> py B) (l1 l2 : list A) (x : A)
    (r : list B) (ex : exn) :
  for_each f l1 = Return r -> f x = Raise ex ->
  for_each f (l1 ++ x :: l2) = Raise ex.
Proof.
  revert r. induction l1 as [|a l1 IH]; simpl; intros r H Hx.
  - now rewrite Hx.
  - destruct (f a); [|discriminate H]. simpl in *.
    destruct (for_each f l1) eqn:E; [|discriminate H].
    now rewrite (IH _ eq_refl Hx).
Qed.

Section Mismatch.

Variable run : string -> Z -> py Reviews.result.

Lemma submit_all_short (units : list (string * Z)) (pid : string)
    (more : list string) :
  Dispatch.submit_all run (map fst units ++ pid :: more) (map snd units)
  = Raise IndexError.
Proof.
  unfold Dispatch.submit_all.
  rewrite length_app, length_map. cbn [List.length].
  rewrite seq_app. cbn [seq Nat.add].
  eapply for_each_stops.
  - rewrite (for_each_ext _
               (fun i => u <- index units i ;; Return (Spec.outcome run u))).
    + pose proof (for_each_index
                    (fun u : string * Z => Return (Spec.outcome run u))
                    units []) as H.
      simpl in H. rewrite H. apply for_each_return.
    + intros i Hi. apply in_seq in Hi. unfold index.
      rewrite nth_error_app1 by (rewrite length_map; lia).
      rewrite !nth_error_map. simpl.
      destruct (nth_error units i); reflexivity.
  - unfold index.
    rewrite nth_error_app2 by (rewrite length_map; lia).
    rewrite length_map, Nat.sub_diag. cbn [nth_error Py.bind].
    replace (nth_error (map snd units) (List.length units)) with (@None Z);
      [reflexivity|].
    symmetry. apply nth_error_None. rewrite length_map. lia.
Qed.

Lemma submit_all_long (units : list (string * Z)) (surplus : list Z) :
  Dispatch.submit_all run (map fst units) (map snd units ++ surplus)
  = Dispatch.submit_all run (map fst units) (map snd units).
Proof.
  unfold Dispatch.submit_all. apply for_each_ext.
  intros i Hi. apply in_seq in Hi. rewrite length_map in Hi.
  unfold index. rewrite nth_error_app1 by (rewrite length_map; lia).
  reflexivity.
Qed.

End Mismatch.

Section NegativeBatch.

Variable run : string -> Z -> py Reviews.result.
Variable units : list (string * Z).
Variable batch_size : Z.
Hypothesis batch_size_neg : batch_size < 0.
Hypothesis units_nonempty : units <> [].

Lemma negative_batch_loop (fuel : nat) :
  forall (count : Z) (errors : list string) (total_data : list json),
    0 <= count ->
    Batch.all_prof_reviews_loop run fuel (map fst units) (map snd units)
      batch_size count errors total_data = None.
Proof.
  induction fuel as [|fuel IH]; intros count errors total Hc; [reflexivity|].
  cbn [Batch.all_prof_reviews_loop].
  destruct (Z.eqb_spec batch_size 0) as [|_]; [lia|].
  rewrite !slice_map, get_all_prof_reviews_units.
  rewrite length_map.
  destruct (Z.ltb_spec (count * batch_size) (Z.of_nat (List.length units)))
    as [_|Hge].
  - apply IH. lia.
  - destruct units; [congruence | simpl in Hge; nia].
Qed.

End NegativeBatch.

(** ** The properties *)

(** X2.  The requests of one run of [get_prof_reviews] are chained, for
    any service and whether or not the run ends: the first request carries
    the empty cursor; every further request is sent only after a response
    whose [hasNextPage] was true, and carries the [endCursor] of that
    response as it came.  All of them use the reviews query and the id of
    the professor asked for. *)
Theorem reviews_requests_are_chained (fuel : nat) (srv : service)
    (prof_id : string) (num_reviews : Z) :
  let rqs := posts (snd (Reviews.get_prof_reviews fuel srv prof_id
                           num_reviews)) in
  Trace.threaded srv Spec.reviews_page_info 0 (JStr "") rqs /\
  Forall (fun rq => query rq = ProfReviews /\ ref rq = prof_id) rqs.
Proof.
  split; [apply reviews_loop_threaded | apply reviews_loop_fields].
Qed.

(** X3.  The same for [get_profs]: first request with the empty cursor,
    each further request only after a page that announced a further page,
    with that page's [endCursor]; all of them use the professors query
    and the encoded id of the school asked for. *)
Theorem profs_requests_are_chained (fuel : nat) (e : env)
    (school_number page_size : Z) (pages : option Z) :
  let rqs := posts (snd (Profs.get_profs fuel e school_number page_size
                           pages)) in
  Trace.threaded (graphql e) Trace.profs_page_info 0 (JStr "") rqs /\
  Forall (fun rq => query rq = ProfsAtSchool /\
                    ref rq = Profs.school_id school_number) rqs.
Proof.
  unfold Profs.get_profs.
  destruct (Profs.school_valid e school_number) as [[|]|ex];
    try (split; [exact I | constructor]).
  split; [apply profs_loop_threaded | apply profs_loop_fields].
Qed.

(** X4.  [get_prof_reviews] sleeps exactly when it fails: a run that
    returns the error flag ends with one cool-down of 20 seconds, after
    its last request, and has done nothing but post requests before; a
    run that returns without the flag, or does not end, only posts
    requests. *)
Theorem reviews_cool_down (fuel : nat) (srv : service) (prof_id : string)
    (num_reviews : Z) :
  let r := Reviews.get_prof_reviews fuel srv prof_id num_reviews in
  match fst r with
  | Some res =>
      if Reviews.error res
      then exists t, snd r = t ++ [Sleep 20] /\
                     Forall (fun ev => is_post ev = true) t
      else Forall (fun ev => is_post ev = true) (snd r)
  | None => Forall (fun ev => is_post ev = true) (snd r)
  end.
Proof. apply reviews_loop_sleeps. Qed.

(** X5.  With [pages=p], [get_profs] posts at most [max(1, p)] requests,
    and that many turns of the loop are enough for it to end, whatever
    the service answers (a service that announces a further page for
    ever included).  For a valid school the first page is always asked
    for, also when [p <= 0]; when [p <= 1] it is the only request. *)
Theorem get_profs_page_cap (fuel extra : nat) (e : env)
    (school_number page_size p : Z) :
  (List.length
     (posts (snd (Profs.get_profs fuel e school_number page_size (Some p))))
   <= Trace.page_budget p)%nat /\
  (exists out,
     fst (Profs.get_profs (Trace.page_budget p + extra) e school_number
            page_size (Some p)) = Some out) /\
  (Profs.school_valid e school_number = Return true ->
   exists rest,
     posts (snd (Profs.get_profs (S fuel) e school_number page_size
                   (Some p)))
     = mkRequest ProfsAtSchool page_size (JStr "")
         (Profs.school_id school_number) :: rest /\
     (p <= 1 -> rest = [])).
Proof.
  split; [|split].
  - unfold Profs.get_profs.
    destruct (Profs.school_valid e school_number) as [[|]|ex];
      try (simpl; unfold Trace.page_budget; lia).
    cbn [emit snd posts flat_map app].
    destruct (profs_loop_cap (graphql e) (Profs.school_id school_number)
                page_size p fuel 0 None (JStr "") [] 0) as [H _].
    now rewrite Z.sub_0_r in H.
  - unfold Profs.get_profs.
    destruct (Profs.school_valid e school_number) as [[|]|ex];
      try (now eexists).
    rewrite fst_emit.
    destruct (profs_loop_cap (graphql e) (Profs.school_id school_number)
                page_size p (Trace.page_budget p + extra) 0 None (JStr "")
                [] 0) as [_ H].
    rewrite Z.sub_0_r in H. apply H. lia.
  - intros Hvalid. unfold Profs.get_profs. rewrite Hvalid.
    cbn [Profs.get_profs_loop]. eexists. split; [reflexivity|].
    intros Hp.
    destruct (graphql e 0%nat _) as [|[|]|jv]; try reflexivity.
    destruct (Profs.envelope jv) as [[page_info ej]|ex];
      [|destruct ex; reflexivity].
    destruct (Py.bind (iter ej) _); [|reflexivity].
    destruct (Py.bind (getitem page_info "hasNextPage") _) as [[h c]|];
      [|reflexivity].
    unfold Profs.cap_reached.
    destruct (Z.leb_spec p (0 + 1)); [reflexivity | lia].
Qed.

Lemma get_profs_page_cap_witness :
  let e := mkEnv Mock.open_school
             (fun _ _ =>
                Body (Mock.profs_page [Mock.teacher "Ada"] true "next")) in
  Profs.school_valid e 42 = Return true /\
  posts (snd (Profs.get_profs 5 e 42 1000 (Some 0)))
    = [mkRequest ProfsAtSchool 1000 (JStr "") (Profs.school_id 42)] /\
  fst (Profs.get_profs 5 e 42 1000 (Some 0))
    = Some (Return [Mock.teacher_flat "Ada"]).
Proof.
  intros e. split; [reflexivity|]. split; [|reflexivity].
  destruct (get_profs_page_cap 4 0 e 42 1000 0) as (_ & _ & H).
  destruct (H eq_refl) as (rest & Hposts & Hrest).
  rewrite Hposts, (Hrest ltac:(lia)). reflexivity.
Defined.

Lemma posts_get (school_number : Z) (t : list event) :
  posts (Get school_number :: t) = posts t.
Proof. reflexivity. Qed.

Section ProfsAfterPrefix.

Variables (e : env) (school_number page_size : Z) (text : string).
Variables (ps : list Spec.page) (recs : list json) (fuel : nat).
Hypothesis Hpage : page_of_school e school_number = Return text.
Hypothesis Hvalid : Profs.classify text = true.
Hypothesis Hall : Forall (fun p => truthy (Spec.has_next p) = true) ps.
Hypothesis Hsrv : Spec.serves Spec.profs_body (graphql e) 0 ps.
Hypothesis Hrecs :
  for_each Spec.promote (filter Spec.kept (flat_map Spec.edges ps))
    = Return recs.

Lemma get_profs_after_prefix :
  exists t j cur,
    Forall (fun ev => is_post ev = true) t /\
    List.length t = List.length ps /\
    Profs.get_profs (List.length ps + S fuel) e school_number page_size None
    = (fst (Profs.get_profs_loop (S fuel) (graphql e)
              (Profs.school_id school_number) page_size None
              (List.length ps) j cur recs (Z.of_nat (List.length ps))),
       Get school_number
       :: t ++ snd (Profs.get_profs_loop (S fuel) (graphql e)
                      (Profs.school_id school_number) page_size None
                      (List.length ps) j cur recs
                      (Z.of_nat (List.length ps)))).
Proof.
  destruct (profs_loop_prefix (graphql e) (Profs.school_id school_number)
              page_size ps (S fuel) 0 None (JStr "") [] recs 0 Hall Hsrv
              Hrecs) as (t & j & cur & Ht & Hlen & Hrun).
  exists t, j, cur. split; [exact Ht|]. split; [exact Hlen|].
  unfold Profs.get_profs, Profs.school_valid.
  rewrite Hpage. cbn [Py.bind]. rewrite Hvalid, Hrun. reflexivity.
Qed.

End ProfsAfterPrefix.

(** X6.  [session.post] is outside the [try] of [get_profs]: when the
    request after [k] good pages fails in transport, the function raises
    the connection error, after [k+1] requests, and the records of the
    [k] pages are not returned. *)
Theorem get_profs_loses_records_on_transport_error (e : env)
    (school_number page_size : Z) (text : string) (ps : list Spec.page)
    (recs : list json) (fuel : nat) :
  page_of_school e school_number = Return text ->
  Profs.classify text = true ->
  Forall (fun p => truthy (Spec.has_next p) = true) ps ->
  Spec.serves Spec.profs_body (graphql e) 0 ps ->
  for_each Spec.promote (filter Spec.kept (flat_map Spec.edges ps))
    = Return recs ->
  (forall rq, graphql e (List.length ps) rq = ConnectionFailed) ->
  let r := Profs.get_profs (List.length ps + S fuel) e school_number
             page_size None in
  fst r = Some (Raise ConnectionError) /\
  List.length (posts (snd r)) = S (List.length ps).
Proof.
  intros Hpage Hvalid Hall Hsrv Hrecs Hdown r.
  destruct (get_profs_after_prefix e school_number page_size text ps recs
              fuel Hpage Hvalid Hall Hsrv Hrecs)
    as (t & j & cur & Ht & Hlen & Hrun).
  subst r. rewrite Hrun. cbn [Profs.get_profs_loop fst snd].
  rewrite Hdown. split; [reflexivity|].
  rewrite posts_get, posts_app, length_app, (posts_all t Ht), Hlen.
  simpl. lia.
Qed.

Lemma get_profs_loses_records_on_transport_error_witness :
  let e := mkEnv Mock.open_school
             (Mock.sequence
                [Body (Mock.profs_page [Mock.teacher "Ada"] true "c1")]) in
  let ps := [Spec.mkPage [Mock.edge_of (Mock.teacher "Ada")] (JBool true)
               (JStr "c1")] in
  Spec.serves Spec.profs_body (graphql e) 0 ps /\
  (forall rq, graphql e 1%nat rq = ConnectionFailed) /\
  fst (Profs.get_profs 2 e 42 1000 None) = Some (Raise ConnectionError) /\
  List.length (posts (snd (Profs.get_profs 2 e 42 1000 None))) = 2%nat.
Proof.
  intros e ps.
  assert (Hsrv : Spec.serves Spec.profs_body (graphql e) 0 ps).
  { split; [|exact I]. intros rq. eexists. split; [reflexivity|].
    eexists _, _. repeat split; reflexivity. }
  split; [exact Hsrv|]. split; [reflexivity|].
  apply (get_profs_loses_records_on_transport_error e 42 1000
           "<html>Professors at this school</html>" ps
           [Mock.teacher_flat "Ada"] 0);
    try reflexivity; [repeat constructor | exact Hsrv].
Defined.

(** X7.  The [for] loop over the edges is outside the [try] of
    [get_profs] too: when, after [k] good pages, a page carries a
    ['Teacher'] node without the key [school], the function raises
    [KeyError('school')] instead of returning; the records of the earlier
    pages and of the nodes before it are not returned. *)
Theorem get_profs_raises_on_teacher_without_school (e : env)
    (school_number page_size : Z) (text : string) (ps : list Spec.page)
    (recs : list json) (fuel : nat)
    (jv page_info ej bad : json) (pre post rs : list json)
    (m : list (string * json)) :
  page_of_school e school_number = Return text ->
  Profs.classify text = true ->
  Forall (fun p => truthy (Spec.has_next p) = true) ps ->
  Spec.serves Spec.profs_body (graphql e) 0 ps ->
  for_each Spec.promote (filter Spec.kept (flat_map Spec.edges ps))
    = Return recs ->
  (forall rq, graphql e (List.length ps) rq = Body jv) ->
  Profs.envelope jv = Return (page_info, ej) ->
  iter ej = Return (pre ++ bad :: post) ->
  for_each Spec.promote (filter Spec.kept pre) = Return rs ->
  getitem bad "node" = Return (JObj m) ->
  Dict.get "__typename" m = Some (JStr "Teacher") ->
  Dict.get "school" m = None ->
  let r := Profs.get_profs (List.length ps + S fuel) e school_number
             page_size None in
  fst r = Some (Raise (KeyError "school")) /\
  List.length (posts (snd r)) = S (List.length ps).
Proof.
  intros Hpage Hvalid Hall Hsrv Hrecs Hbody Henv Hiter Hpre Hn Ht Hs r.
  destruct (get_profs_after_prefix e school_number page_size text ps recs
              fuel Hpage Hvalid Hall Hsrv Hrecs)
    as (t & j & cur & Hposts & Hlen & Hrun).
  assert (Hbad : forall acc,
            Profs.add_edge acc bad = Raise (KeyError "school")).
  { intros acc. unfold Profs.add_edge. rewrite Hn. cbn [Py.bind getitem].
    rewrite Ht. cbn [Py.bind eq_str]. rewrite Hs. reflexivity. }
  subst r. rewrite Hrun. cbn [Profs.get_profs_loop fst snd].
  rewrite Hbody, Henv, Hiter. cbn [Py.bind].
  rewrite (add_edges_stops recs pre post (recs ++ rs) bad
             (KeyError "school"));
    [| rewrite add_edges_spec, Hpre; reflexivity | apply Hbad].
  split; [reflexivity|].
  cbn [emit fst snd].
  rewrite posts_get, posts_app, length_app, (posts_all t Hposts), Hlen.
  simpl. lia.
Qed.

Lemma get_profs_raises_on_teacher_without_school_witness :
  let second := Mock.profs_page
                  [Mock.teacher "Bob"; Cases.teacher_without_school "Cy";
                   Mock.teacher "Di"] false "c2" in
  let e := mkEnv Mock.open_school
             (Mock.sequence
                [Body (Mock.profs_page [Mock.teacher "Ada"] true "c1");
                 Body second]) in
  let ps := [Spec.mkPage [Mock.edge_of (Mock.teacher "Ada")] (JBool true)
               (JStr "c1")] in
  Spec.serves Spec.profs_body (graphql e) 0 ps /\
  (forall rq, graphql e 1%nat rq = Body second) /\
  fst (Profs.get_profs 2 e 42 1000 None) = Some (Raise (KeyError "school"))
  /\ List.length (posts (snd (Profs.get_profs 2 e 42 1000 None))) = 2%nat.
Proof.
  intros second e ps.
  assert (Hsrv : Spec.serves Spec.profs_body (graphql e) 0 ps).
  { split; [|exact I]. intros rq. eexists. split; [reflexivity|].
    eexists _, _. repeat split; reflexivity. }
  split; [exact Hsrv|]. split; [reflexivity|].
  eapply (get_profs_raises_on_teacher_without_school e 42 1000
            "<html>Professors at this school</html>" ps
            [Mock.teacher_flat "Ada"] 0 second _ _
            (Mock.edge_of (Cases.teacher_without_school "Cy"))
            [Mock.edge_of (Mock.teacher "Bob")]
            [Mock.edge_of (Mock.teacher "Di")]
            [Mock.teacher_flat "Bob"]);
    try reflexivity; [repeat constructor | exact Hsrv].
Defined.

(** X8.  Reshaping a review touches three fields only: every field of
    the node other than [profId], [thumbs] and [teacherNote] is in the
    record with the same value, and a field the node does not have is
    not in the record. *)
Theorem reshape_keeps_other_fields (prof_id : string) (edge node r : json)
    (k : string) :
  getitem edge "node" = Return node ->
  Reviews.reshape prof_id edge = Return r ->
  k <> "profId" -> k <> "thumbs" -> k <> "teacherNote" ->
  getitem r k = getitem node k.
Proof. intros Hn Hr. now apply (reshape_other_fields prof_id edge). Qed.

Lemma reshape_keeps_other_fields_witness :
  let edge := Mock.edge_of (Mock.review "Clear lectures") in
  getitem edge "node" = Return (Mock.review "Clear lectures") /\
  Reviews.reshape "VGVhY2hlci00Mg==" edge
    = Return (Mock.review_flat "Clear lectures" "VGVhY2hlci00Mg==") /\
  getitem (Mock.review_flat "Clear lectures" "VGVhY2hlci00Mg==") "comment"
    = getitem (Mock.review "Clear lectures") "comment".
Proof.
  intros edge. split; [reflexivity|]. split; [reflexivity|].
  apply (reshape_keeps_other_fields "VGVhY2hlci00Mg==" edge);
    try reflexivity; discriminate.
Defined.

(** X9.  For a ['Teacher'] node that [get_profs] appends, exactly one
    record is appended, and every field of the node other than
    [schoolId], [schoolName] and [school] is in the record with the same
    value. *)
Theorem add_edge_keeps_other_fields (results results' : list json)
    (edge node : json) :
  getitem edge "node" = Return node ->
  getitem node "__typename" = Return (JStr "Teacher") ->
  Profs.add_edge results edge = Return results' ->
  exists r,
    results' = results ++ [r] /\
    forall k, k <> "schoolId" -> k <> "schoolName" -> k <> "school" ->
              getitem r k = getitem node k.
Proof.
  intros Hn Ht H. rewrite add_edge_spec in H.
  assert (Hk : Spec.skipped edge = false).
  { unfold Spec.skipped, Spec.typename_of. rewrite Hn. cbn [Py.bind].
    now rewrite Ht. }
  rewrite Hk in H. destruct (Spec.promote edge) as [r|] eqn:Hp;
    [|discriminate H].
  injection H as <-. exists r. split; [reflexivity|].
  now apply (promote_other_fields edge).
Qed.

Lemma add_edge_keeps_other_fields_witness :
  let edge := Mock.edge_of (Mock.teacher "Ada") in
  getitem edge "node" = Return (Mock.teacher "Ada") /\
  Profs.add_edge [] edge = Return [Mock.teacher_flat "Ada"] /\
  exists r,
    [Mock.teacher_flat "Ada"] = [] ++ [r] /\
    forall k, k <> "schoolId" -> k <> "schoolName" -> k <> "school" ->
              getitem r k = getitem (Mock.teacher "Ada") k.
Proof.
  intros edge. split; [reflexivity|]. split; [reflexivity|].
  apply (add_edge_keeps_other_fields [] [Mock.teacher_flat "Ada"] edge);
    reflexivity.
Defined.

(** X10.  [get_all_prof_reviews] reads [prof_num_reviews] by the
    indices of [prof_ids].  With fewer counts than ids it raises
    [IndexError] while submitting and returns nothing; with more counts
    than ids the surplus is ignored. *)
Theorem mismatched_lengths (run : string -> Z -> py Reviews.result)
    (units : list (string * Z)) (pid : string) (more : list string)
    (surplus : list Z) :
  Dispatch.get_all_prof_reviews run (map fst units ++ pid :: more)
    (map snd units) = Raise IndexError /\
  Dispatch.get_all_prof_reviews run (map fst units)
    (map snd units ++ surplus)
  = Dispatch.get_all_prof_reviews run (map fst units) (map snd units).
Proof.
  unfold Dispatch.get_all_prof_reviews.
  now rewrite submit_all_short, submit_all_long.
Qed.

(** X11.  For every positive batch size, one larger than the list (the
    default of 1,000,000) included, and also for the empty list,
    [all_prof_reviews] ends within [M + 1] batches.  With any table
    library it then saves, once, the table of everything the units
    returned, and returns the ids of the failing units in the order of
    the list (or raises what the library raises while saving). *)
Theorem any_positive_batch_size (L : Tables.library)
    (run : string -> Z -> py Reviews.result)
    (units : list (string * Z)) (batch_size : Z) (extra : nat) :
  0 < batch_size ->
  Batch.all_prof_reviews L run (S (List.length units) + extra)
    (map fst units) (map snd units) batch_size
  = Some (df <- Tables.DataFrame L (Spec.gathered run units) ;;
          df <- Tables.unique L df ;;
          _ <- Tables.write_csv L df ;;
          Return (df, map fst (Spec.failing run units))).
Proof.
  intros H. rewrite batches_run; [|exact H | lia]. now rewrite save_bind.
Qed.

Lemma any_positive_batch_size_witness :
  let run := Dispatch.reviews_unit Mock.one_review_each (fun _ => 1%nat) in
  let units := [("p1", 1); ("p2", 1); ("p1", 1)] in
  0 < 1000000 /\
  Batch.all_prof_reviews Mock.tables run 4 (map fst units) (map snd units)
    1000000
  = Some (Return
            ([JObj [("comment", JStr "p1"); ("profId", JStr "p1")];
              JObj [("comment", JStr "p2"); ("profId", JStr "p2")]],
             [])).
Proof.
  intros run units. split; [lia|].
  exact (any_positive_batch_size Mock.tables run units 1000000 0
           ltac:(lia)).
Defined.

(** X12.  A batch size of zero makes [all_prof_reviews] raise
    [ZeroDivisionError] in its first progress line, for any input.  With
    a negative batch size and a list that is not empty, [start] never
    reaches the length of the list: the loop does not end, whatever the
    fuel. *)
Theorem non_positive_batch_size (L : Tables.library)
    (run : string -> Z -> py Reviews.result)
    (units : list (string * Z)) (batch_size : Z) (fuel : nat)
    (prof_ids : list string) (prof_num_reviews : list Z) :
  batch_size < 0 ->
  units <> [] ->
  Batch.all_prof_reviews L run (S fuel) prof_ids prof_num_reviews 0
    = Some (Raise ZeroDivisionError) /\
  Batch.all_prof_reviews L run fuel (map fst units) (map snd units)
    batch_size
    = None.
Proof.
  intros Hneg Hne. split; [reflexivity|].
  unfold Batch.all_prof_reviews.
  now rewrite (negative_batch_loop run units batch_size Hneg Hne fuel 0 [] []).
Qed.

Lemma non_positive_batch_size_witness :
  let run := Dispatch.reviews_unit Mock.one_review_each (fun _ => 1%nat) in
  -2 < 0 /\
  Batch.all_prof_reviews Mock.tables run 50 ["p1"; "p2"; "p3"] [1; 1; 1]
    (-2) = None.
Proof.
  intros run. split; [lia|].
  apply (non_positive_batch_size Mock.tables run
           [("p1", 1); ("p2", 1); ("p3", 1)] (-2) 50 [] []);
    [lia | discriminate].
Defined.
